(** * LLM Tracing Demo: request-scoped tracing around one provider call

    A shallow embedding of [src/app/main.py] and
    [src/app/services/llm_service.py].  Python values are an inductive type,
    exceptions are values of [pyexn] carried in the left injection of a sum,
    and the effects of a request (entropy drawn by [uuid4], the attributes of
    [request.state], the emitted trace) are threaded through a small
    state-and-exception monad. *)

From Stdlib Require Import ZArith List String Ascii Bool Lia DecimalString.
Import ListNotations.
Open Scope string_scope.
Open Scope Z_scope.

Set Warnings "-register-all".

(** ** Python strings

    A Python [str] is modelled by a Rocq [string] whose characters are the
    code points below 256. *)

Module PyString.

(** [str.isspace] on one code point below 256: TAB..CR, FS..US, SPACE,
    NEL (0x85) and NBSP (0xa0). *)
Definition isspace (c : ascii) : bool :=
  let n := nat_of_ascii c in
  ((9 <=? n) && (n <=? 13) || (28 <=? n) && (n <=? 32)
   || (n =? 133) || (n =? 160))%nat.

Fixpoint lstrip (s : string) : string :=
  match s with
  | EmptyString => EmptyString
  | String c rest => if isspace c then lstrip rest else s
  end.

(** [rstrip] keeps a character when it is not white space or when something
    survives to its right. *)
Fixpoint rstrip (s : string) : string :=
  match s with
  | EmptyString => EmptyString
  | String c rest =>
      match rstrip rest with
      | EmptyString => if isspace c then EmptyString else String c EmptyString
      | kept => String c kept
      end
  end.

(** [s.strip()] *)
Definition strip (s : string) : string := rstrip (lstrip s).

(** truth value of a [str]: non-empty *)
Definition truthy (s : string) : bool :=
  match s with EmptyString => false | _ => true end.

(** [sep.join(items)] for items already known to be [str] *)
Fixpoint join (sep : string) (items : list string) : string :=
  match items with
  | [] => EmptyString
  | [x] => x
  | x :: rest => x ++ sep ++ join sep rest
  end.

Definition lower_char (c : ascii) : ascii :=
  let n := nat_of_ascii c in
  if ((65 <=? n) && (n <=? 90))%nat then ascii_of_nat (n + 32) else c.

(** [s.lower()] on ASCII letters, which is all that header names use *)
Fixpoint lower (s : string) : string :=
  match s with
  | EmptyString => EmptyString
  | String c rest => String (lower_char c) (lower rest)
  end.

(** every character of [s] is white space *)
Fixpoint all_space (s : string) : bool :=
  match s with
  | EmptyString => true
  | String c rest => isspace c && all_space rest
  end.

Definition of_nat (n : nat) : string := NilEmpty.string_of_uint (Nat.to_uint n).

Definition LF : string := String (ascii_of_nat 10) EmptyString.

End PyString.

(** ** Python values *)

Inductive pyval : Type :=
| PyNone
| PyBool (b : bool)
| PyInt (z : Z)
| PyStr (s : string)
| PyList (items : list pyval)
| PyDict (items : list (string * pyval)).

Definition pydict := list (string * pyval).

(** [bool(v)] *)
Definition truthy (v : pyval) : bool :=
  match v with
  | PyNone => false
  | PyBool b => b
  | PyInt z => negb (z =? 0)
  | PyStr s => PyString.truthy s
  | PyList items => match items with [] => false | _ => true end
  | PyDict items => match items with [] => false | _ => true end
  end.

(** [type(v).__name__] *)
Definition type_name (v : pyval) : string :=
  match v with
  | PyNone => "NoneType"
  | PyBool _ => "bool"
  | PyInt _ => "int"
  | PyStr _ => "str"
  | PyList _ => "list"
  | PyDict _ => "dict"
  end.

(** the entry of [key] in [d], if any *)
Fixpoint dict_lookup (d : pydict) (key : string) : option pyval :=
  match d with
  | [] => None
  | (k, v) :: rest => if String.eqb k key then Some v else dict_lookup rest key
  end.

(** [d.get(key, default)] *)
Definition dict_get (d : pydict) (key : string) (default : pyval) : pyval :=
  match dict_lookup d key with
  | Some v => v
  | None => default
  end.

(** an [Optional[str]] as a Python value *)
Definition of_optional (o : option string) : pyval :=
  match o with Some s => PyStr s | None => PyNone end.

(** [x or y] on two [Optional[str]] operands *)
Definition or_else (x y : option string) : option string :=
  match x with
  | Some s => if PyString.truthy s then x else y
  | None => y
  end.

(** ** Exceptions

    Only subclasses of [Exception] occur; [LLMServiceError] is the class
    declared in the service, the others are builtins. *)

Inductive exn_class : Type :=
| LLMServiceError
| TypeError
| IndexError
| AttributeError
| OtherException (name : string).

(** [raise cls(msg) from cause] *)
Inductive pyexn : Type :=
| Raise (cls : exn_class) (msg : string) (cause : option pyexn).

Definition exn_cls (e : pyexn) : exn_class := let (c, _, _) := e in c.
(** [str(exc)] of an exception built from one message *)
Definition exn_str (e : pyexn) : string := let (_, m, _) := e in m.
Definition exn_cause (e : pyexn) : option pyexn := let (_, _, c) := e in c.

(** [isinstance(exc, LLMServiceError)] *)
Definition is_LLMServiceError (e : pyexn) : bool :=
  match exn_cls e with LLMServiceError => true | _ => false end.

Definition result (A : Type) : Type := (pyexn + A)%type.

(** ** String conversion of values

    [repr] of a [str] picks the quote as CPython does (double quotes only
    when the text holds a single quote and no double quote) and escapes the
    backslash, the chosen quote, TAB, LF, CR and the code points that are not
    printable. *)

Module PyRepr.

Definition hex_digit (n : nat) : ascii :=
  (if n <? 10 then ascii_of_nat (48 + n) else ascii_of_nat (87 + n))%nat.

Definition hex2 (n : nat) : string :=
  String (hex_digit (n / 16)) (String (hex_digit (n mod 16)) EmptyString).

Definition squote : ascii := "039"%char.
Definition dquote : ascii := "034"%char.
Definition backslash : ascii := "092"%char.

Fixpoint contains (c : ascii) (s : string) : bool :=
  match s with
  | EmptyString => false
  | String d rest => Ascii.eqb c d || contains c rest
  end.

Definition printable (n : nat) : bool :=
  ((32 <=? n) && (n <? 127) || (161 <=? n) && negb (n =? 173))%nat.

Definition escape (quote c : ascii) : string :=
  let n := nat_of_ascii c in
  if Ascii.eqb c backslash then String backslash (String backslash EmptyString)
  else if Ascii.eqb c quote then String backslash (String quote EmptyString)
  else if (n =? 9)%nat then String backslash "t"
  else if (n =? 10)%nat then String backslash "n"
  else if (n =? 13)%nat then String backslash "r"
  else if printable n then String c EmptyString
  else String backslash (String "x"%char (hex2 n)).

Fixpoint escape_all (quote : ascii) (s : string) : string :=
  match s with
  | EmptyString => EmptyString
  | String c rest => escape quote c ++ escape_all quote rest
  end.

(** [repr(s)] for a [str] *)
Definition of_str (s : string) : string :=
  let quote := if contains squote s && negb (contains dquote s)
               then dquote else squote in
  String quote (escape_all quote s ++ String quote EmptyString).

(** [repr(z)] for an [int] *)
Definition of_int (z : Z) : string := NilEmpty.string_of_int (Z.to_int z).

(** [repr(v)]; a list or a dict prints its items with [repr] *)
Fixpoint repr (v : pyval) : string :=
  match v with
  | PyNone => "None"
  | PyBool b => if b then "True" else "False"
  | PyInt z => of_int z
  | PyStr s => of_str s
  | PyList items => ("[" ++ PyString.join ", " (map repr items) ++ "]")%string
  | PyDict items =>
      ("{" ++ PyString.join ", "
                (map (fun kv : string * pyval =>
                        let (k, x) := kv in of_str k ++ ": " ++ repr x)
                     items) ++ "}")%string
  end.

End PyRepr.


(** ** The provider's response

    A content part is either a [dict] or some other object; the service
    applies only [str] to the latter, so such a part is represented by the
    text [str(part)] yields. *)

Inductive part : Type :=
| PartDict (d : pydict)
| PartObject (str_ : string).

Inductive content_value : Type :=
| ContentNone
| ContentStr (s : string)
| ContentList (parts : list part)
| ContentOther.

(** [content = None] stands for a message object without that attribute. *)
Record completion_message : Type := { content : option content_value }.
Record choice : Type := { message : completion_message }.
Record completion : Type := { choices : list choice }.

(** The three failures the service raises, all of class [LLMServiceError],
    told apart by their message. *)
Inductive ServiceError : Type := CallFailed | EmptyResponse | MalformedResponse.

Definition service_message (k : ServiceError) : string :=
  match k with
  | CallFailed => "Failed to call LLM via OpenRouter"
  | EmptyResponse => "Empty response from LLM"
  | MalformedResponse => "Unexpected LLM response structure"
  end.

Definition service_error (k : ServiceError) (cause : option pyexn) : pyexn :=
  Raise LLMServiceError (service_message k) cause.

(** the variant an exception stands for, if it is a service error *)
Definition variant_of (e : pyexn) : option ServiceError :=
  if negb (is_LLMServiceError e) then None
  else if String.eqb (exn_str e) (service_message CallFailed) then Some CallFailed
  else if String.eqb (exn_str e) (service_message EmptyResponse) then Some EmptyResponse
  else if String.eqb (exn_str e) (service_message MalformedResponse)
       then Some MalformedResponse
  else None.

(** [completion.choices[0].message] *)
Definition first_message (c : completion) : result completion_message :=
  match choices c with
  | [] => inl (Raise IndexError "list index out of range" None)
  | first :: _ => inr (message first)
  end.

(** [getattr(message, "content", None)] *)
Definition getattr_content (m : completion_message) : content_value :=
  match content m with
  | Some v => v
  | None => ContentNone
  end.

(** [part.get("text", "") if isinstance(part, dict) else str(part)] *)
Definition part_text (p : part) : pyval :=
  match p with
  | PartDict d => dict_get d "text" (PyStr "")
  | PartObject s => PyStr s
  end.

(** The items of a [str.join] argument, which must all be [str]; [i] is the
    position reported by the [TypeError]. *)
Fixpoint join_items (i : nat) (items : list pyval) : result (list string) :=
  match items with
  | [] => inr []
  | PyStr s :: rest =>
      match join_items (S i) rest with
      | inl e => inl e
      | inr l => inr (s :: l)
      end
  | v :: _ =>
      inl (Raise TypeError
             ("sequence item " ++ PyString.of_nat i ++ ": expected str instance, "
              ++ type_name v ++ " found") None)
  end.

(** [sep.join(items)] on arbitrary values *)
Definition py_join (sep : string) (items : list pyval) : result string :=
  match join_items 0 items with
  | inl e => inl e
  | inr l => inr (PyString.join sep l)
  end.

(** The body of the second [try] of [_call_llm] (lines 50-65): [inr (Some t)]
    is [return t], [inr None] is falling out of the block, [inl e] is an
    exception raised inside it. *)
Definition try_extract (c : completion) : result (option string) :=
  match first_message c with
  | inl e => inl e
  | inr m =>
      match getattr_content m with
      | ContentStr s =>
          if PyString.truthy (PyString.strip s) then inr (Some s)
          else inl (service_error EmptyResponse None)
      | ContentList ((_ :: _) as parts) =>
          let text_parts := map part_text parts in
          match py_join PyString.LF (filter truthy text_parts) with
          | inl e => inl e
          | inr combined =>
              if PyString.truthy (PyString.strip combined) then inr (Some combined)
              else inr None
          end
      | _ => inr None
      end
  end.

(** Lines 49-69 of [_call_llm]: the [try] block, its [except Exception]
    clause, and the final [raise]. *)
Definition normalize (c : completion) : result string :=
  match try_extract c with
  | inl exc => inl (service_error MalformedResponse (Some exc))
  | inr (Some text) => inr text
  | inr None => inl (service_error EmptyResponse None)
  end.

(** the two messages of the chat-completion request *)
Definition chat_messages (prompt : pyval) : list pydict :=
  [ [("role", PyStr "system");
     ("content", PyStr "You are a helpful assistant for a tracing demo.")];
    [("role", PyStr "user"); ("content", prompt)] ].

Section Provider.

(** [client.chat.completions.create(model=..., messages=...)]: the remote
    call either raises or returns a completion. *)
Variable create : string -> list pydict -> result completion.

Definition _call_llm (prompt : pyval) : result string :=
  match create "anthropic/claude-3.5-sonnet" (chat_messages prompt) with
  | inl exc => inl (service_error CallFailed (Some exc))
  | inr completion => normalize completion
  end.

End Provider.

(** a completion with one choice whose message has the given content *)
Definition completion_of (v : content_value) : completion :=
  {| choices := [ {| message := {| content := Some v |} |} ] |}.


(** ** [uuid.uuid4] and [str(UUID)] *)

Module UUID.

(** [UUID(bytes=..., version=4)]: the variant and version bits are forced
    into the 128-bit integer. *)
Definition with_version4 (int : Z) : Z :=
  let int := Z.land int (Z.lnot (Z.shiftl 0xc000 48)) in
  let int := Z.lor int (Z.shiftl 0x8000 48) in
  let int := Z.land int (Z.lnot (Z.shiftl 0xf000 64)) in
  Z.lor int (Z.shiftl 4 76).

(** the [n] low hexadecimal digits of [z], most significant first; this is
    ['%032x' % z] for [n = 32] and [0 <= z < 2^128] *)
Fixpoint hex_fixed (n : nat) (z : Z) : string :=
  match n with
  | O => EmptyString
  | S k => (hex_fixed k (z / 16)
            ++ String (PyRepr.hex_digit (Z.to_nat (z mod 16))) EmptyString)%string
  end.

(** [UUID.__str__]: the groups [hex[:8]], [hex[8:12]], [hex[12:16]],
    [hex[16:20]], [hex[20:]] joined by dashes *)
Definition to_str (int : Z) : string :=
  let hex := hex_fixed 32 int in
  (substring 0 8 hex ++ "-" ++ substring 8 4 hex ++ "-" ++ substring 12 4 hex
   ++ "-" ++ substring 16 4 hex ++ "-" ++ substring 20 12 hex)%string.

(** [str(uuid4())] from the 16 bytes [os.urandom] returned, read big-endian *)
Definition uuid4_str (random16 : Z) : string :=
  to_str (with_version4 (random16 mod 2 ^ 128)).

End UUID.

(** ** Requests, responses and the trace *)

Module ChatRequest.
Record t : Type := { message : string; model : option string; session_id : option string }.
End ChatRequest.

Module ChatResponse.
Record t : Type := { response : string; request_id : string }.
End ChatResponse.

(** What the handlers read of a [Request]; header names are lower case, as
    they are in an ASGI scope. *)
Record Request : Type :=
  { method : string; path : string; headers : list (string * string) }.

Record Response : Type :=
  { status_code : Z; body : pydict; raw_headers : list (string * string) }.

(** [headers.get(key)]: the key is lowered, the first match wins *)
Fixpoint headers_lookup (hs : list (string * string)) (key : string) : option string :=
  match hs with
  | [] => None
  | (k, v) :: rest => if String.eqb k key then Some v else headers_lookup rest key
  end.

Definition headers_get (hs : list (string * string)) (key : string) : option string :=
  headers_lookup hs (PyString.lower key).

Definition drop_key (key : string) (hs : list (string * string)) :=
  filter (fun kv => negb (String.eqb (fst kv) key)) hs.

(** [MutableHeaders.__setitem__] after lowering the key: the first entry of
    that name is replaced and later ones are deleted, or the pair is
    appended. *)
Fixpoint headers_replace (hs : list (string * string)) (key value : string) :=
  match hs with
  | [] => [(key, value)]
  | (k, v) :: rest =>
      if String.eqb k key then (key, value) :: drop_key key rest
      else (k, v) :: headers_replace rest key value
  end.

(** [response.headers[key] = value] *)
Definition set_header (r : Response) (key value : string) : Response :=
  {| status_code := status_code r;
     body := body r;
     raw_headers := headers_replace (raw_headers r) (PyString.lower key) value |}.

(** [JSONResponse(status_code=..., content=...)]; of the initial headers only
    the content type is kept, the content length depends on the rendering. *)
Definition JSONResponse (status : Z) (content : pydict) : Response :=
  {| status_code := status;
     body := content;
     raw_headers := [("content-type", "application/json")] |}.

Record span : Type :=
  { span_name : string;
    span_input : pydict;
    span_metadata : pydict;
    span_level : string;
    span_status_message : string }.

(** What reaches the tracing client: the observation opened by [@observe]
    with the metadata propagated to it, and the spans opened by
    [start_as_current_span]. *)
Inductive trace_event : Type :=
| Observation (name as_type : string) (metadata : pydict)
| Span (s : span).

(** ** The state of one request

    [draws] counts the calls to [os.urandom]; [state] holds the attributes of
    [request.state], which every [Request] built on the same ASGI scope
    shares; [trace] is what has been emitted so far. *)
Record world : Type :=
  { draws : nat; state : list (string * string); trace : list trace_event }.

Definition M (A : Type) : Type := world -> result A * world.

Definition ret {A} (a : A) : M A := fun w => (inr a, w).
Definition raise {A} (e : pyexn) : M A := fun w => (inl e, w).
Definition bind {A B} (m : M A) (k : A -> M B) : M B :=
  fun w => match m w with
           | (inl e, w') => (inl e, w')
           | (inr a, w') => k a w'
           end.
(** [try: m except Exception as exc: handler exc] *)
Definition try_except {A} (m : M A) (handler : pyexn -> M A) : M A :=
  fun w => match m w with
           | (inl e, w') => handler e w'
           | (inr a, w') => (inr a, w')
           end.
Definition lift {A} (r : result A) : M A := fun w => (r, w).

Notation "x <- m ;; k" := (bind m (fun x => k))
  (at level 61, m at next level, right associativity).
Notation "m ;;; k" := (bind m (fun _ => k))
  (at level 61, right associativity).

Definition emit (ev : trace_event) : M unit :=
  fun w => (inr tt, {| draws := draws w; state := state w;
                       trace := (trace w ++ [ev])%list |}).

(** [getattr(request.state, name, None)] *)
Definition getattr_state (name : string) : M (option string) :=
  fun w => (inr (headers_lookup (state w) name), w).

(** [request.state.<name> = value] *)
Definition setattr_state (name value : string) : M unit :=
  fun w => (inr tt, {| draws := draws w;
                       state := (name, value) :: drop_key name (state w);
                       trace := trace w |}).

(** ** The service and the application *)

Inductive langfuse : Type := Langfuse.

Section App.

(** the [i]-th answer of [os.urandom(16)], as a big-endian integer *)
Variable urandom : nat -> Z.
(** the provider behind the configured client *)
Variable create : string -> list pydict -> result completion.
(** the module-level [langfuse_client = get_client()] of [main.py] *)
Variable langfuse_client : option langfuse.

(** [str(uuid4())] *)
Definition uuid4_str : M string :=
  fun w => (inr (UUID.uuid4_str (urandom (draws w))),
            {| draws := S (draws w); state := state w; trace := trace w |}).

(** Binding positional arguments to
    [def get_llm_response(prompt, request_id=None)]. *)
Definition bind_arguments (args : list pyval) : result (pyval * pyval) :=
  match args with
  | [] =>
      inl (Raise TypeError
             "get_llm_response() missing 1 required positional argument: 'prompt'"
             None)
  | [prompt] => inr (prompt, PyNone)
  | [prompt; request_id] => inr (prompt, request_id)
  | _ =>
      inl (Raise TypeError
             ("get_llm_response() takes from 1 to 2 positional arguments but "
              ++ PyString.of_nat (List.length args) ++ " were given") None)
  end.

(** the metadata handed to [propagate_attributes] (lines 71-74); what the
    tracing library then does with a value it refuses (it drops a text
    longer than 200 characters) is its own affair and is not modelled *)
Definition propagated_metadata (request_id : pyval) : pydict :=
  if truthy request_id then [("request_id", request_id)] else [].

(** [get_llm_response] called on positional arguments, under
    [@observe(name="llm-chat-completion", as_type="generation")]: the wrapper
    opens the observation, then calls the function with the arguments it was
    given; an exception of the call passes through the wrapper.  [create]
    stands for the client that line 29 has built: a failure of
    [_get_client] itself is not part of this definition (see [Config]). *)
Definition get_llm_response (args : list pyval) : M string :=
  match bind_arguments args with
  | inl e =>
      emit (Observation "llm-chat-completion" "generation" []) ;;;
      raise e
  | inr (prompt, request_id) =>
      emit (Observation "llm-chat-completion" "generation"
              (propagated_metadata request_id)) ;;;
      lift (_call_llm create prompt)
  end.

(** [add_request_id_middleware] *)
Definition add_request_id_middleware
    (request : Request) (call_next : Request -> M Response) : M Response :=
  let header_request_id := headers_get (headers request) "X-Request-ID" in
  request_id <- match header_request_id with
                | Some h => if PyString.truthy h then ret h else uuid4_str
                | None => uuid4_str
                end ;;
  setattr_state "request_id" request_id ;;;
  response <- call_next request ;;
  ret (set_header response "X-Request-ID" request_id).

(** line 69: [payload.session_id or request.headers.get("X-Session-ID")] *)
Definition resolve_session_id (payload : ChatRequest.t) (request : Request)
  : option string :=
  or_else (ChatRequest.session_id payload)
          (headers_get (headers request) "X-Session-ID").

(** the positional arguments of lines 72-78 *)
Definition call_arguments (payload : ChatRequest.t) (request_id : string)
    (session_id : option string) : list pyval :=
  [ PyStr (ChatRequest.message payload);
    PyStr request_id;
    of_optional session_id;
    of_optional (ChatRequest.model payload) ].

(** [chat_endpoint]; the default of [getattr] is computed before the lookup,
    and [run_in_threadpool] is the call itself. *)
Definition chat_endpoint (payload : ChatRequest.t) (request : Request)
  : M ChatResponse.t :=
  default <- uuid4_str ;;
  stored <- getattr_state "request_id" ;;
  let request_id := match stored with Some r => r | None => default end in
  let session_id := resolve_session_id payload request in
  llm_response <- get_llm_response (call_arguments payload request_id session_id) ;;
  ret {| ChatResponse.response := llm_response;
         ChatResponse.request_id := request_id |}.

(** the [POST /chat] route: the returned model rendered as a 200 response *)
Definition route_chat (payload : ChatRequest.t) (request : Request) : M Response :=
  r <- chat_endpoint payload request ;;
  ret (JSONResponse 200 [("response", PyStr (ChatResponse.response r));
                         ("request_id", PyStr (ChatResponse.request_id r))]).

(** [_record_error_span] *)
Definition _record_error_span (request : Request) (error : pyexn)
    (error_type : string) : M unit :=
  match langfuse_client with
  | None => ret tt
  | Some _ =>
      request_id <- getattr_state "request_id" ;;
      emit (Span {| span_name := error_type;
                    span_input := [("path", PyStr (path request));
                                   ("method", PyStr (method request));
                                   ("request_id", of_optional request_id)];
                    span_metadata := [("error", PyStr (exn_str error));
                                      ("error_type", PyStr error_type)];
                    span_level := "error";
                    span_status_message := "error" |})
  end.

(** [llm_service_exception_handler] *)
Definition llm_service_exception_handler (request : Request) (exc : pyexn)
  : M Response :=
  _record_error_span request exc "LLMServiceError" ;;;
  request_id <- getattr_state "request_id" ;;
  ret (JSONResponse 500 [("detail", PyStr "An error occurred while calling the LLM.");
                         ("request_id", of_optional request_id)]).

(** [generic_exception_handler] *)
Definition generic_exception_handler (request : Request) (exc : pyexn)
  : M Response :=
  _record_error_span request exc "UnhandledException" ;;;
  request_id <- getattr_state "request_id" ;;
  ret (JSONResponse 500 [("detail", PyStr "Internal server error.");
                         ("request_id", of_optional request_id)]).

(** *** The middleware stack

    The framework builds the stack as: the server-error middleware, which
    owns the handler registered for [Exception]; then the user middleware;
    then the exception middleware, which owns the handlers of the other
    classes; then the router.  (The CORS middleware sits between the
    request-id middleware and the exception middleware and touches none of
    the headers used here.) *)

(** handlers registered for classes other than [Exception]; only the one
    the application registers is modelled, not those the framework brings
    for its own exceptions ([HTTPException], [RequestValidationError],
    [WebSocketException]), see [framework_handled] *)
Definition ExceptionMiddleware (app : Request -> M Response) (request : Request)
  : M Response :=
  try_except (app request)
    (fun exc => if is_LLMServiceError exc
                then llm_service_exception_handler request exc
                else raise exc).

(** the handler registered for [Exception]: its response is sent, then the
    exception is raised again for the server to log *)
Definition ServerErrorMiddleware (app : Request -> M Response) (request : Request)
  : M Response :=
  try_except (app request) (fun exc => generic_exception_handler request exc).

(** the stack around an arbitrary route *)
Definition stack (route : Request -> M Response) : Request -> M Response :=
  ServerErrorMiddleware
    (fun request => add_request_id_middleware request (ExceptionMiddleware route)).

(** the application serving a validated [POST /chat] *)
Definition app (payload : ChatRequest.t) : Request -> M Response :=
  stack (route_chat payload).

End App.

(** a fresh request scope *)
Definition initial_world : world := {| draws := 0; state := []; trace := [] |}.

(** ** Notions used to state the properties *)

(** a completion whose first choice carries the given content *)
Definition completion_with (v : content_value) (others : list choice) : completion :=
  {| choices := {| message := {| content := Some v |} |} :: others |}.

(** what normalization amounts to: a text, or the variant of its failure *)
Definition outcome (r : result string) : option (ServiceError + string) :=
  match r with
  | inr text => Some (inr text)
  | inl e => option_map inl (variant_of e)
  end.

(** The text of a part in the words of the specification: its text field,
    and the string conversion of the whole part when it has none. *)
Definition spec_part_text (p : part) : pyval :=
  match p with
  | PartDict d =>
      match dict_lookup d "text" with
      | Some v => v
      | None => PyStr (PyRepr.repr (PyDict d))
      end
  | PartObject s => PyStr s
  end.

(** Normalization of a sequence in the words of the specification. *)
Definition spec_normalize_parts (parts : list part) : ServiceError + string :=
  match py_join PyString.LF (filter truthy (map spec_part_text parts)) with
  | inl _ => inl MalformedResponse
  | inr combined =>
      if PyString.truthy (PyString.strip combined) then inr combined
      else inl EmptyResponse
  end.

(** The text a part contributes when its text entry, if any, is a [str]. *)
Inductive part_has_text : part -> string -> Prop :=
| text_of_entry d s :
    dict_lookup d "text" = Some (PyStr s) -> part_has_text (PartDict d) s
| text_of_dict_without_entry d :
    dict_lookup d "text" = None -> part_has_text (PartDict d) ""
| text_of_object s : part_has_text (PartObject s) s.

(** Session resolution in the words of the specification: the body field if
    supplied, else the header, else absent. *)
Definition spec_resolve_session_id (payload : ChatRequest.t) (request : Request)
  : option string :=
  match ChatRequest.session_id payload with
  | Some s => Some s
  | None => headers_get (headers request) "X-Session-ID"
  end.

(** the incoming request id, when the header is there and not empty *)
Definition incoming_request_id (request : Request) : option string :=
  match headers_get (headers request) "X-Request-ID" with
  | Some h => if PyString.truthy h then Some h else None
  | None => None
  end.

(** the request id established at entry *)
Definition established_request_id (urandom : nat -> Z) (request : Request)
    (w : world) : string :=
  match incoming_request_id request with
  | Some h => h
  | None => UUID.uuid4_str (urandom (draws w))
  end.

(** the world in which the rest of the stack starts *)
Definition entered (urandom : nat -> Z) (request : Request) (w : world) : world :=
  {| draws := match incoming_request_id request with
              | Some _ => draws w
              | None => S (draws w)
              end;
     state := ("request_id", established_request_id urandom request w)
              :: drop_key "request_id" (state w);
     trace := trace w |}.

(** does a trace event name a session id? *)
Definition mentions_session (ev : trace_event) : bool :=
  match ev with
  | Observation _ _ metadata =>
      match dict_lookup metadata "session_id" with Some _ => true | None => false end
  | Span s =>
      match dict_lookup (span_metadata s) "session_id",
            dict_lookup (span_input s) "session_id" with
      | None, None => false
      | _, _ => true
      end
  end.

(** the error span of [_record_error_span] *)
Definition error_span (request : Request) (request_id : option string)
    (error : pyexn) (error_type : string) : span :=
  {| span_name := error_type;
     span_input := [("path", PyStr (path request));
                    ("method", PyStr (method request));
                    ("request_id", of_optional request_id)];
     span_metadata := [("error", PyStr (exn_str error));
                       ("error_type", PyStr error_type)];
     span_level := "error";
     span_status_message := "error" |}.

(** the body of a failure response *)
Definition failure_body (detail : string) (request_id : option string) : pydict :=
  [("detail", PyStr detail); ("request_id", of_optional request_id)].

Definition with_trace (w : world) (events : list trace_event) : world :=
  {| draws := draws w; state := state w; trace := (trace w ++ events)%list |}.

Definition too_many_arguments : pyexn :=
  Raise TypeError
    "get_llm_response() takes from 1 to 2 positional arguments but 4 were given"
    None.

(** the observation [@observe] opens *)
Definition generation (metadata : pydict) : trace_event :=
  Observation "llm-chat-completion" "generation" metadata.

(** what [_record_error_span] records *)
Definition recorded (client : option langfuse) (request : Request)
    (request_id : option string) (error : pyexn) (error_type : string)
  : list trace_event :=
  match client with
  | Some _ => [Span (error_span request request_id error error_type)]
  | None => []
  end.

(** the request and the provider of the scenarios *)
Definition ping_payload : ChatRequest.t :=
  {| ChatRequest.message := "ping";
     ChatRequest.model := None;
     ChatRequest.session_id := None |}.

Definition chat_request (hs : list (string * string)) : Request :=
  {| method := "POST"; path := "/chat"; headers := hs |}.

Definition pong_provider : string -> list pydict -> result completion :=
  fun _ _ => inr (completion_of (ContentStr "pong")).

Definition failing_provider (e : pyexn)
  : string -> list pydict -> result completion :=
  fun _ _ => inl e.

Definition zero_entropy : nat -> Z := fun _ => 0.

(** ** Configuration ([config.py]) and the provider client

    [AppSettings()] reads and validates the environment; that is pydantic's
    work and is kept abstract as [load].  The two URL fields hold the text
    [str] gives for them.  [lru_cache(maxsize=1)] on a function without
    parameters is one slot, filled by the first call that returns. *)

Module Config.

Record AppSettings : Type :=
  { openai_api_key : string;
    openai_base_url : string;
    langfuse_public_key : option string;
    langfuse_secret_key : option string;
    langfuse_host : string }.

Section Settings.

Variable environ : Type.
Variable load : environ -> result AppSettings.
(** the client class and its constructor
    [OpenAI(base_url=..., api_key=...)], which can raise (it refuses an
    empty key) and can read the environment *)
Variable OpenAI : Type.
Variable new_OpenAI : environ -> string -> string -> result OpenAI.

(** [get_settings()] in environment [env], with the state of its cache *)
Definition get_settings (env : environ) (cache : option AppSettings)
  : result AppSettings * option AppSettings :=
  match cache with
  | Some settings => (inr settings, cache)
  | None =>
      match load env with
      | inr settings => (inr settings, Some settings)
      | inl e => (inl e, None)
      end
  end.

(** [_get_client()] of the service *)
Definition _get_client (env : environ) (cache : option AppSettings)
  : result OpenAI * option AppSettings :=
  match get_settings env cache with
  | (inr settings, cache') =>
      (new_OpenAI env (openai_base_url settings) (openai_api_key settings),
       cache')
  | (inl e, cache') => (inl e, cache')
  end.

End Settings.

End Config.

(** ** Further notions used to state properties *)

(** [isinstance(v, str)] *)
Definition is_str (v : pyval) : bool :=
  match v with PyStr _ => true | _ => false end.

(** a text that passes the filter of line 63 and that [join] refuses *)
Definition bad_text (v : pyval) : bool := truthy v && negb (is_str v).

(** the responses on which normalization reports an unexpected structure *)
Definition malformed_shape (c : completion) : bool :=
  match choices c with
  | [] => true
  | first :: _ =>
      match getattr_content (message first) with
      | ContentStr s => PyString.all_space s
      | ContentList parts => existsb bad_text (map part_text parts)
      | _ => false
      end
  end.

(** the entries of a header list under one name *)
Definition entries_of (key : string) (hs : list (string * string)) :=
  filter (fun kv => String.eqb (fst kv) key) hs.

(** is an event an error span? *)
Definition is_error_span (ev : trace_event) : bool :=
  match ev with
  | Span s => String.eqb (span_level s) "error"
  | Observation _ _ _ => false
  end.

(** a lower-case hexadecimal digit *)
Definition is_hex_lower (c : ascii) : bool :=
  let n := nat_of_ascii c in
  ((48 <=? n) && (n <=? 57) || (97 <=? n) && (n <=? 102))%nat.

(** the 122 bits of a draw that survive [UUID.with_version4] *)
Definition free_bits (random16 : Z) : Z :=
  Z.land (random16 mod 2 ^ 128)
         (Z.lnot (Z.lor (Z.shiftl 0xc000 48) (Z.shiftl 0xf000 64))).

(** settings and a loader for the examples: the load succeeds when the
    API key is in the environment *)
Definition sample_settings : Config.AppSettings :=
  {| Config.openai_api_key := "sk-test";
     Config.openai_base_url := "https://openrouter.ai/api/v1";
     Config.langfuse_public_key := None;
     Config.langfuse_secret_key := None;
     Config.langfuse_host := "http://localhost:3000/" |}.

Definition sample_load (key_present : bool) : result Config.AppSettings :=
  if key_present then inr sample_settings
  else inl (Raise (OtherException "ValidationError") "openai_api_key" None).

(** a constructor for the examples: the client is the pair of its base URL
    and key, and an empty key is refused *)
Definition sample_new_OpenAI (_ : bool) (base_url api_key : string)
  : result (string * string) :=
  if PyString.truthy api_key then inr (base_url, api_key)
  else inl (Raise (OtherException "OpenAIError") "The api_key client option must be set" None).

(** Exceptions of the classes the model names are builtin errors and the
    service error.  One of another class may be an exception that the
    framework answers with a handler of its own ([HTTPException],
    [RequestValidationError], [WebSocketException]); the statements about
    the stack leave those out. *)
Definition framework_handled (e : pyexn) : bool :=
  match exn_cls e with
  | OtherException _ => true
  | _ => false
  end.

Arguments UUID.uuid4_str : simpl never.

(** ** Properties of the string and header operations *)

Lemma rstrip_empty_iff (s : string) :
  PyString.rstrip s = "" <-> PyString.all_space s = true.
Proof.
  induction s as [|c rest IH]; simpl.
  - tauto.
  - destruct (PyString.rstrip rest) eqn:E.
    + destruct (PyString.isspace c); simpl.
      * tauto.
      * split; discriminate.
    + split; [discriminate|].
      intros H. apply andb_true_iff in H. destruct H as [_ H].
      apply IH in H. discriminate.
Qed.

Lemma all_space_lstrip (s : string) :
  PyString.all_space (PyString.lstrip s) = PyString.all_space s.
Proof.
  induction s as [|c rest IH]; simpl; [reflexivity|].
  destruct (PyString.isspace c) eqn:E; simpl.
  - exact IH.
  - rewrite E. reflexivity.
Qed.

(** A string is empty after trimming exactly when it is made of white space
    only. *)
Lemma strip_empty_iff (s : string) :
  PyString.strip s = "" <-> PyString.all_space s = true.
Proof.
  unfold PyString.strip. rewrite rstrip_empty_iff, all_space_lstrip. tauto.
Qed.

Lemma truthy_strip (s : string) :
  PyString.truthy (PyString.strip s) = negb (PyString.all_space s).
Proof.
  destruct (PyString.all_space s) eqn:E.
  - apply strip_empty_iff in E. rewrite E. reflexivity.
  - destruct (PyString.strip s) eqn:S; [|reflexivity].
    apply strip_empty_iff in S. congruence.
Qed.

Lemma headers_lookup_replace (hs : list (string * string)) (key value : string) :
  headers_lookup (headers_replace hs key value) key = Some value.
Proof.
  induction hs as [|[k v] rest IH]; simpl.
  - rewrite String.eqb_refl. reflexivity.
  - destruct (String.eqb k key) eqn:E; simpl.
    + rewrite String.eqb_refl. reflexivity.
    + rewrite E. exact IH.
Qed.

(** After [response.headers[key] = value], [headers.get(key)] is [value]. *)
Lemma headers_get_set_header (r : Response) (key value : string) :
  headers_get (raw_headers (set_header r key value)) key = Some value.
Proof. unfold headers_get, set_header; simpl. apply headers_lookup_replace. Qed.

Lemma join_items_strs (texts : list string) (i : nat) :
  join_items i (map PyStr texts) = inr texts.
Proof.
  revert i. induction texts as [|t rest IH]; intros i; simpl; [reflexivity|].
  rewrite IH. reflexivity.
Qed.

Lemma filter_truthy_strs (texts : list string) :
  filter truthy (map PyStr texts) = map PyStr (filter PyString.truthy texts).
Proof.
  induction texts as [|t rest IH]; simpl; [reflexivity|].
  destruct (PyString.truthy t); simpl; rewrite IH; reflexivity.
Qed.

Lemma part_text_of (p : part) (s : string) :
  part_has_text p s -> part_text p = PyStr s.
Proof.
  intros H. destruct H as [d s E|d E|s]; unfold part_text, dict_get;
    try rewrite E; reflexivity.
Qed.

Lemma part_texts_of (parts : list part) (texts : list string) :
  Forall2 part_has_text parts texts -> map part_text parts = map PyStr texts.
Proof.
  induction 1 as [|p s ps ss H _ IH]; simpl; [reflexivity|].
  rewrite (part_text_of _ _ H), IH. reflexivity.
Qed.

(** ** The text of a UUID *)

(** the version digit of the 128-bit integer is 4 *)
Lemma version_nibble (x : Z) :
  (UUID.with_version4 x / 2 ^ 76) mod 2 ^ 4 = 4.
Proof.
  unfold UUID.with_version4.
  apply Z.bits_inj'. intros n Hn.
  destruct (Z.ltb_spec n 4) as [Hlt|Hge].
  - rewrite Z.mod_pow2_bits_low by lia.
    rewrite Z.div_pow2_bits by lia.
    rewrite Z.lor_spec, Z.land_spec, Z.lnot_spec by lia.
    rewrite !Z.shiftl_spec by lia.
    replace (n + 76 - 76) with n by lia.
    replace (n + 76 - 64) with (n + 12) by lia.
    assert (C : n = 0 \/ n = 1 \/ n = 2 \/ n = 3) by lia.
    destruct C as [-> | [-> | [-> | ->]]]; simpl; rewrite ?andb_false_r; reflexivity.
  - rewrite Z.mod_pow2_bits_high by lia.
    symmetry. apply Z.bits_above_log2; simpl; lia.
Qed.

Lemma string_length_app (a b : string) :
  String.length (a ++ b) = (String.length a + String.length b)%nat.
Proof. induction a; simpl; congruence. Qed.

Lemma hex_fixed_length (n : nat) (z : Z) : String.length (UUID.hex_fixed n z) = n.
Proof.
  revert z. induction n as [|k IH]; intros z; simpl; [reflexivity|].
  rewrite string_length_app, IH. simpl. lia.
Qed.

Lemma substring_length (s : string) (n m : nat) :
  (n + m <= String.length s)%nat -> String.length (substring n m s) = m.
Proof.
  revert n m. induction s as [|c rest IH]; intros n m H; simpl in *.
  - destruct n, m; simpl; try reflexivity; lia.
  - destruct n as [|n]; [destruct m as [|m]; simpl; [reflexivity|]|].
    + f_equal. apply (IH 0%nat). lia.
    + apply IH. lia.
Qed.

Lemma hex_fixed_get (n i : nat) (z : Z) :
  (i < n)%nat ->
  String.get i (UUID.hex_fixed n z)
  = Some (PyRepr.hex_digit (Z.to_nat ((z / 16 ^ Z.of_nat (n - 1 - i)) mod 16))).
Proof.
  revert i z. induction n as [|k IH]; intros i z H; [lia|].
  simpl UUID.hex_fixed.
  destruct (Nat.eq_dec i k) as [->|Hne].
  - replace (S k - 1 - k)%nat with 0%nat by lia.
    rewrite Z.pow_0_r, Z.div_1_r.
    pose proof (append_correct2 (UUID.hex_fixed k (z / 16))
                  (String (PyRepr.hex_digit (Z.to_nat (z mod 16))) "") 0) as A.
    rewrite hex_fixed_length in A. simpl in A. rewrite <- A. reflexivity.
  - rewrite <- append_correct1 by (rewrite hex_fixed_length; lia).
    rewrite IH by lia.
    replace (S k - 1 - i)%nat with (S (k - 1 - i)) by lia.
    rewrite Nat2Z.inj_succ, Z.pow_succ_r by lia.
    rewrite Z.div_div by lia. reflexivity.
Qed.

Lemma get_app_right (a b : string) (i : nat) :
  (String.length a <= i)%nat ->
  String.get i (a ++ b) = String.get (i - String.length a) b.
Proof.
  intros H. rewrite (append_correct2 a b (i - String.length a)).
  f_equal. lia.
Qed.

Lemma get_app_left (a b : string) (i : nat) :
  (i < String.length a)%nat -> String.get i (a ++ b) = String.get i a.
Proof. intros H. symmetry. apply append_correct1. exact H. Qed.

Lemma to_str_shape (z : Z) :
  String.length (UUID.to_str z) = 36%nat
  /\ String.get 14 (UUID.to_str z)
     = Some (PyRepr.hex_digit (Z.to_nat ((z / 16 ^ 19) mod 16)))
  /\ String.get 8 (UUID.to_str z) = Some "-"%char
  /\ String.get 13 (UUID.to_str z) = Some "-"%char
  /\ String.get 18 (UUID.to_str z) = Some "-"%char
  /\ String.get 23 (UUID.to_str z) = Some "-"%char.
Proof.
  unfold UUID.to_str; cbv zeta.
  pose proof (hex_fixed_length 32 z) as L.
  set (hex := UUID.hex_fixed 32 z) in *.
  assert (L1 : String.length (substring 0 8 hex) = 8%nat)
    by (apply substring_length; lia).
  assert (L2 : String.length (substring 8 4 hex) = 4%nat)
    by (apply substring_length; lia).
  assert (L3 : String.length (substring 12 4 hex) = 4%nat)
    by (apply substring_length; lia).
  assert (L4 : String.length (substring 16 4 hex) = 4%nat)
    by (apply substring_length; lia).
  assert (L5 : String.length (substring 20 12 hex) = 12%nat)
    by (apply substring_length; lia).
  split; [|split; [|repeat split]].
  - rewrite !string_length_app, L1, L2, L3, L4, L5. reflexivity.
  - rewrite get_app_right by lia. rewrite L1.
    rewrite get_app_right by (simpl; lia). simpl String.length.
    rewrite get_app_right by lia. rewrite L2.
    rewrite get_app_right by (simpl; lia). simpl String.length.
    rewrite get_app_left by lia.
    rewrite substring_correct1 by lia.
    unfold hex. rewrite hex_fixed_get by lia. reflexivity.
Qed.

(** The text of a generated id has 36 characters, and 4 as version digit. *)
Lemma uuid4_str_shape (random16 : Z) :
  String.length (UUID.uuid4_str random16) = 36%nat
  /\ String.get 14 (UUID.uuid4_str random16) = Some "4"%char.
Proof.
  unfold UUID.uuid4_str.
  destruct (to_str_shape (UUID.with_version4 (random16 mod 2 ^ 128)))
    as (L & V & _).
  split; [exact L|]. rewrite V.
  change (16 ^ 19) with (2 ^ 76). change 16 with (2 ^ 4).
  rewrite version_nibble. reflexivity.
Qed.

(** ** The response normalizer *)

Example repr_of_dict :
  PyRepr.repr (PyDict [("type", PyStr "image"); ("n", PyInt (-3))])
  = "{'type': 'image', 'n': -3}".
Proof. reflexivity. Qed.

Example normalize_hello :
  normalize (completion_of (ContentStr "hello")) = inr "hello".
Proof. reflexivity. Qed.

(** A string that is not blank is returned as it is, untrimmed. *)
Lemma normalize_string_verbatim (s : string) (others : list choice) :
  PyString.strip s <> "" ->
  normalize (completion_with (ContentStr s) others) = inr s.
Proof.
  intros H. unfold normalize, try_extract; simpl.
  destruct (PyString.strip s); [congruence|reflexivity].
Qed.

(** Content that is [None], or a message without content, is an empty
    response. *)
Lemma normalize_absent_content (others : list choice) :
  normalize (completion_with ContentNone others)
  = inl (service_error EmptyResponse None)
  /\ normalize {| choices := {| message := {| content := None |} |} :: others |}
     = inl (service_error EmptyResponse None).
Proof. split; reflexivity. Qed.

(** C3, the behaviour of the code on string content: a string that is not
    blank is returned verbatim, but a blank one (empty or white space only)
    does not fail with the empty-response error: that error is raised inside
    the [try] block, caught by its own [except Exception] clause, and
    replaced by the error for an unexpected response structure, which keeps
    the empty-response error as its cause only. *)
Theorem C3_blank_string_reported_as_malformed (s : string) (others : list choice) :
  normalize (completion_with (ContentStr s) others)
  = (if PyString.all_space s
     then inl (service_error MalformedResponse
                 (Some (service_error EmptyResponse None)))
     else inr s)
  /\ outcome (normalize (completion_with (ContentStr "") others))
     = Some (inl MalformedResponse)
  /\ outcome (normalize (completion_with (ContentStr "   ") others))
     = Some (inl MalformedResponse).
Proof.
  split; [|split; reflexivity].
  unfold normalize, try_extract; simpl.
  rewrite truthy_strip. destruct (PyString.all_space s); reflexivity.
Qed.

(** General form of the conversion of a sequence of parts, whatever the text
    entries hold: the truthy texts are joined; a text that is not a [str]
    makes [join] raise, which the [except] clause reports. *)
Lemma normalize_parts_general (parts : list part) (others : list choice) :
  normalize (completion_with (ContentList parts) others)
  = match py_join PyString.LF (filter truthy (map part_text parts)) with
    | inl e => inl (service_error MalformedResponse (Some e))
    | inr combined =>
        if PyString.truthy (PyString.strip combined) then inr combined
        else inl (service_error EmptyResponse None)
    end.
Proof.
  unfold normalize, try_extract; simpl.
  destruct parts as [|p ps]; [reflexivity|].
  destruct (py_join PyString.LF (filter truthy (map part_text (p :: ps))));
    [reflexivity|].
  destruct (PyString.truthy (PyString.strip s)); reflexivity.
Qed.

(** C4 as amended: for content that is a list of parts, a dict part
    contributes its text entry, and the empty string when it has no such
    entry; a part that is not a dict contributes its string conversion.  The
    non-empty texts are joined with newlines; the join is returned when it is
    not blank, and otherwise (empty list included) the failure is the
    empty-response error. *)
Theorem C4_normalize_parts
    (parts : list part) (texts : list string) (others : list choice) :
  Forall2 part_has_text parts texts ->
  let combined := PyString.join PyString.LF (filter PyString.truthy texts) in
  normalize (completion_with (ContentList parts) others)
  = if PyString.truthy (PyString.strip combined) then inr combined
    else inl (service_error EmptyResponse None).
Proof.
  intros H combined. rewrite normalize_parts_general.
  rewrite (part_texts_of _ _ H), filter_truthy_strs.
  unfold py_join. rewrite join_items_strs. reflexivity.
Qed.

Lemma C4_normalize_parts_witness :
  Forall2 part_has_text
    [PartDict [("text", PyStr "a")]; PartDict [("type", PyStr "image")];
     PartObject "b"]
    ["a"; ""; "b"]
  /\ normalize (completion_with
                  (ContentList [PartDict [("text", PyStr "a")];
                                PartDict [("type", PyStr "image")];
                                PartObject "b"]) [])
     = inr ("a" ++ PyString.LF ++ "b")%string.
Proof.
  assert (H : Forall2 part_has_text
                [PartDict [("text", PyStr "a")]; PartDict [("type", PyStr "image")];
                 PartObject "b"]
                ["a"; ""; "b"]).
  { constructor; [apply text_of_entry; reflexivity|].
    constructor; [apply text_of_dict_without_entry; reflexivity|].
    constructor; [apply text_of_object|constructor]. }
  split; [exact H|].
  exact (C4_normalize_parts _ _ [] H).
Defined.

(** C4 as stated fails on a dict part without a text entry: the
    specification converts the whole part to a string and returns it, the
    code takes the empty string and reports an empty response. *)
Lemma C4_counterexample :
  spec_normalize_parts [PartDict [("type", PyStr "image")]]
  = inr "{'type': 'image'}"
  /\ outcome (normalize (completion_of
                           (ContentList [PartDict [("type", PyStr "image")]])))
     = Some (inl EmptyResponse)
  /\ outcome (normalize (completion_of
                           (ContentList [PartDict [("type", PyStr "image")]])))
     <> Some (spec_normalize_parts [PartDict [("type", PyStr "image")]]).
Proof. repeat split; try reflexivity. discriminate. Qed.

(** the examples of the specification for sequences *)
Example normalize_two_parts :
  normalize (completion_of (ContentList [PartDict [("text", PyStr "a")];
                                         PartDict [("text", PyStr "b")]]))
  = inr ("a" ++ PyString.LF ++ "b")%string.
Proof. reflexivity. Qed.

Example normalize_empty_list :
  normalize (completion_of (ContentList [])) = inl (service_error EmptyResponse None).
Proof. reflexivity. Qed.

Example normalize_all_empty_parts :
  normalize (completion_of (ContentList [PartDict [("text", PyStr "")];
                                         PartDict [("text", PyStr "")]]))
  = inl (service_error EmptyResponse None).
Proof. reflexivity. Qed.

Example normalize_text_not_a_string :
  outcome (normalize (completion_of (ContentList [PartDict [("text", PyInt 5)]])))
  = Some (inl MalformedResponse).
Proof. reflexivity. Qed.

(** ** The service *)

Lemma with_trace_nil (w : world) : with_trace w [] = w.
Proof. destruct w; unfold with_trace; simpl. rewrite app_nil_r. reflexivity. Qed.

(** A call with one or two arguments runs [_call_llm] under an observation
    whose metadata is the request id, when that is truthy, and nothing else. *)
Lemma get_llm_response_bound
    (create : string -> list pydict -> result completion)
    (prompt request_id : pyval) (w : world) :
  get_llm_response create [prompt; request_id] w
  = (_call_llm create prompt,
     with_trace w [generation (propagated_metadata request_id)])
  /\ get_llm_response create [prompt] w
     = (_call_llm create prompt, with_trace w [generation []]).
Proof. split; reflexivity. Qed.

(** The metadata of the observation never holds a session id. *)
Lemma propagated_metadata_no_session (request_id : pyval) :
  dict_lookup (propagated_metadata request_id) "session_id" = None.
Proof. unfold propagated_metadata. destruct (truthy request_id); reflexivity. Qed.

(** C1, the behaviour of the code: [get_llm_response] declares two
    parameters, [prompt] and [request_id].  Four positional arguments, which
    is what [chat_endpoint] passes, are refused with a [TypeError] before the
    body runs: nothing is bound, the provider is not called, and the
    observation carries no metadata. So every run of [chat_endpoint] raises
    that [TypeError]. *)
Theorem C1_four_arguments_rejected
    (urandom : nat -> Z)
    (create : string -> list pydict -> result completion)
    (prompt request_id session_id model : pyval)
    (payload : ChatRequest.t) (request : Request) (w : world) :
  get_llm_response create [prompt; request_id; session_id; model] w
  = (inl too_many_arguments, with_trace w [generation []])
  /\ fst (chat_endpoint urandom create payload request w) = inl too_many_arguments.
Proof. split; reflexivity. Qed.

(** ** The middleware and the handlers *)

(** The request-id middleware: the rest of the stack runs in the world
    [entered], and a response it returns gets the header. *)
Lemma add_request_id_middleware_unfold
    (urandom : nat -> Z) (request : Request)
    (call_next : Request -> M Response) (w : world) :
  add_request_id_middleware urandom request call_next w
  = match call_next request (entered urandom request w) with
    | (inl e, w') => (inl e, w')
    | (inr response, w') =>
        (inr (set_header response "X-Request-ID"
                (established_request_id urandom request w)), w')
    end.
Proof.
  unfold add_request_id_middleware, entered, established_request_id,
    incoming_request_id.
  destruct (headers_get (headers request) "X-Request-ID") as [h|];
    [destruct (PyString.truthy h)|]; reflexivity.
Qed.

Lemma entered_request_id (urandom : nat -> Z) (request : Request) (w : world) :
  headers_lookup (state (entered urandom request w)) "request_id"
  = Some (established_request_id urandom request w).
Proof. reflexivity. Qed.

Lemma record_error_span_unfold
    (client : option langfuse) (request : Request) (error : pyexn)
    (error_type : string) (w : world) :
  _record_error_span client request error error_type w
  = (inr tt,
     with_trace w (recorded client request (headers_lookup (state w) "request_id")
                     error error_type)).
Proof.
  unfold _record_error_span, recorded. destruct client as [c|].
  - reflexivity.
  - rewrite with_trace_nil. reflexivity.
Qed.

Lemma llm_service_exception_handler_unfold
    (client : option langfuse) (request : Request) (exc : pyexn) (w : world) :
  let request_id := headers_lookup (state w) "request_id" in
  llm_service_exception_handler client request exc w
  = (inr (JSONResponse 500
            (failure_body "An error occurred while calling the LLM." request_id)),
     with_trace w (recorded client request request_id exc "LLMServiceError")).
Proof.
  intros request_id. unfold llm_service_exception_handler, bind.
  rewrite record_error_span_unfold. reflexivity.
Qed.

Lemma generic_exception_handler_unfold
    (client : option langfuse) (request : Request) (exc : pyexn) (w : world) :
  let request_id := headers_lookup (state w) "request_id" in
  generic_exception_handler client request exc w
  = (inr (JSONResponse 500 (failure_body "Internal server error." request_id)),
     with_trace w (recorded client request request_id exc "UnhandledException")).
Proof.
  intros request_id. unfold generic_exception_handler, bind.
  rewrite record_error_span_unfold. reflexivity.
Qed.

(** C9: [langfuse_client] is the client that [get_client()] returned when
    the module was loaded.  With it, either handler records exactly one
    span, of level "error", whose input holds the path, the method and the
    request id of the request and whose metadata holds the message of the
    error and the category label; then the handler answers 500 with the body
    [{detail, request_id}], whose detail depends on the category only. *)
Theorem C9_error_handlers
    (client : langfuse) (request : Request) (exc : pyexn) (w : world) :
  let request_id := headers_lookup (state w) "request_id" in
  let span_of error_type :=
    {| span_name := error_type;
       span_input := [("path", PyStr (path request));
                      ("method", PyStr (method request));
                      ("request_id", of_optional request_id)];
       span_metadata := [("error", PyStr (exn_str exc));
                         ("error_type", PyStr error_type)];
       span_level := "error";
       span_status_message := "error" |} in
  llm_service_exception_handler (Some client) request exc w
  = (inr {| status_code := 500;
            body := [("detail", PyStr "An error occurred while calling the LLM.");
                     ("request_id", of_optional request_id)];
            raw_headers := [("content-type", "application/json")] |},
     with_trace w [Span (span_of "LLMServiceError")])
  /\ generic_exception_handler (Some client) request exc w
     = (inr {| status_code := 500;
               body := [("detail", PyStr "Internal server error.");
                        ("request_id", of_optional request_id)];
               raw_headers := [("content-type", "application/json")] |},
        with_trace w [Span (span_of "UnhandledException")]).
Proof.
  intros request_id span_of. split.
  - apply llm_service_exception_handler_unfold.
  - apply generic_exception_handler_unfold.
Qed.

(** The guard of [_record_error_span]: were the module-level client [None],
    the error would be answered in the same way and no span recorded. *)
Lemma handlers_without_client (request : Request) (exc : pyexn) (w : world) :
  let request_id := headers_lookup (state w) "request_id" in
  llm_service_exception_handler None request exc w
  = (inr (JSONResponse 500
            (failure_body "An error occurred while calling the LLM." request_id)),
     w)
  /\ generic_exception_handler None request exc w
     = (inr (JSONResponse 500 (failure_body "Internal server error." request_id)),
        w).
Proof.
  intros request_id. rewrite llm_service_exception_handler_unfold,
    generic_exception_handler_unfold. simpl. rewrite with_trace_nil.
  split; reflexivity.
Qed.

(** ** The whole stack *)

Lemma try_except_raised {A} (m : M A) (handler : pyexn -> M A)
    (w w' : world) (e : pyexn) :
  m w = (inl e, w') -> try_except m handler w = handler e w'.
Proof. intros H. unfold try_except. rewrite H. reflexivity. Qed.

Lemma try_except_returned {A} (m : M A) (handler : pyexn -> M A)
    (w w' : world) (a : A) :
  m w = (inr a, w') -> try_except m handler w = (inr a, w').
Proof. intros H. unfold try_except. rewrite H. reflexivity. Qed.

(** A route that returns: its response leaves the stack with the header. *)
Lemma stack_returned
    (urandom : nat -> Z) (client : option langfuse)
    (route : Request -> M Response) (request : Request) (w w' : world)
    (response : Response) :
  route request (entered urandom request w) = (inr response, w') ->
  stack urandom client route request w
  = (inr (set_header response "X-Request-ID"
            (established_request_id urandom request w)), w').
Proof.
  intros H. unfold stack, ServerErrorMiddleware.
  apply try_except_returned. rewrite add_request_id_middleware_unfold.
  unfold ExceptionMiddleware. rewrite (try_except_returned _ _ _ _ _ H).
  reflexivity.
Qed.

(** A route that raises a service error without touching [request.state]:
    the handler of the exception middleware answers inside the request-id
    middleware, so the 500 response has the request id in its body and in
    its header. *)
Lemma stack_service_error
    (urandom : nat -> Z) (client : option langfuse)
    (route : Request -> M Response) (request : Request) (w w' : world)
    (exc : pyexn) :
  route request (entered urandom request w) = (inl exc, w') ->
  is_LLMServiceError exc = true ->
  state w' = state (entered urandom request w) ->
  let request_id := established_request_id urandom request w in
  stack urandom client route request w
  = (inr (set_header
            (JSONResponse 500
               (failure_body "An error occurred while calling the LLM."
                  (Some request_id)))
            "X-Request-ID" request_id),
     with_trace w' (recorded client request (Some request_id) exc "LLMServiceError")).
Proof.
  intros H Hcls Hstate request_id. unfold stack, ServerErrorMiddleware.
  apply try_except_returned. rewrite add_request_id_middleware_unfold.
  unfold ExceptionMiddleware. rewrite (try_except_raised _ _ _ _ _ H), Hcls.
  rewrite llm_service_exception_handler_unfold, Hstate, entered_request_id.
  reflexivity.
Qed.

(** A route that raises anything else without touching [request.state]: the
    exception leaves the request-id middleware, whose line after
    [call_next] does not run, and the handler of the server-error middleware
    answers outside it: the body has the request id, the headers do not. *)
Lemma stack_unhandled
    (urandom : nat -> Z) (client : option langfuse)
    (route : Request -> M Response) (request : Request) (w w' : world)
    (exc : pyexn) :
  route request (entered urandom request w) = (inl exc, w') ->
  is_LLMServiceError exc = false ->
  state w' = state (entered urandom request w) ->
  let request_id := established_request_id urandom request w in
  stack urandom client route request w
  = (inr (JSONResponse 500 (failure_body "Internal server error." (Some request_id))),
     with_trace w' (recorded client request (Some request_id) exc
                      "UnhandledException")).
Proof.
  intros H Hcls Hstate request_id. unfold stack, ServerErrorMiddleware.
  erewrite try_except_raised.
  - rewrite generic_exception_handler_unfold, Hstate, entered_request_id.
    reflexivity.
  - rewrite add_request_id_middleware_unfold.
    unfold ExceptionMiddleware. rewrite (try_except_raised _ _ _ _ _ H), Hcls.
    reflexivity.
Qed.

(** what [route_chat] does in the world the middleware prepared *)
Lemma route_chat_raises
    (urandom : nat -> Z)
    (create : string -> list pydict -> result completion)
    (payload : ChatRequest.t) (request : Request) (w : world) :
  route_chat urandom create payload request (entered urandom request w)
  = (inl too_many_arguments,
     with_trace {| draws := S (draws (entered urandom request w));
                   state := state (entered urandom request w);
                   trace := trace w |} [generation []]).
Proof. reflexivity. Qed.

(** Every validated chat request ends in the catch-all handler. *)
Lemma app_outcome
    (urandom : nat -> Z)
    (create : string -> list pydict -> result completion)
    (client : option langfuse)
    (payload : ChatRequest.t) (request : Request) (w : world) :
  let request_id := established_request_id urandom request w in
  app urandom create client payload request w
  = (inr (JSONResponse 500 (failure_body "Internal server error." (Some request_id))),
     with_trace
       (with_trace {| draws := S (draws (entered urandom request w));
                      state := state (entered urandom request w);
                      trace := trace w |} [generation []])
       (recorded client request (Some request_id) too_many_arguments
          "UnhandledException")).
Proof.
  intros request_id. unfold app.
  apply stack_unhandled with (1 := route_chat_raises _ _ _ _ _); reflexivity.
Qed.

(** C2, the behaviour of the code on the scenario: the service itself turns
    the provider's "pong" into the text "pong", but the endpoint never gets
    it, because its call of the service passes four arguments.  The answer
    to the request is the 500 of the catch-all handler, with the request id
    in its body. *)
Theorem C2_ping_answered_with_500
    (urandom : nat -> Z) (client : option langfuse)
    (hs : list (string * string)) (w : world) :
  let request_id := established_request_id urandom (chat_request hs) w in
  fst (get_llm_response pong_provider [PyStr "ping"; PyStr request_id] w)
  = inr "pong"
  /\ fst (app urandom pong_provider client ping_payload (chat_request hs) w)
     = inr {| status_code := 500;
              body := [("detail", PyStr "Internal server error.");
                       ("request_id", PyStr request_id)];
              raw_headers := [("content-type", "application/json")] |}.
Proof.
  intros request_id. split; [reflexivity|].
  rewrite app_outcome. reflexivity.
Qed.


(** C6, the behaviour of the code: the answer to a validated chat request is
    the 500 of the catch-all handler; its body carries the request id
    established at entry, its headers carry no request id at all, even when
    the request came with one.  (A response that passes through the
    request-id middleware does get the header: see [stack_returned] and
    [stack_service_error].) *)
Theorem C6_catch_all_response_without_header
    (urandom : nat -> Z)
    (create : string -> list pydict -> result completion)
    (client : option langfuse)
    (payload : ChatRequest.t) (request : Request) (w : world) :
  (exists response,
     fst (app urandom create client payload request w) = inr response
     /\ status_code response = 500
     /\ dict_lookup (body response) "request_id"
        = Some (PyStr (established_request_id urandom request w))
     /\ headers_get (raw_headers response) "X-Request-ID" = None)
  /\ fst (app zero_entropy pong_provider (Some Langfuse) ping_payload
            (chat_request [("x-request-id", "abc")]) initial_world)
     = inr {| status_code := 500;
              body := [("detail", PyStr "Internal server error.");
                       ("request_id", PyStr "abc")];
              raw_headers := [("content-type", "application/json")] |}.
Proof.
  split; [|reflexivity].
  eexists. rewrite app_outcome. repeat split.
Qed.

(** ** Request and session identifiers *)

Lemma established_from_header (urandom : nat -> Z) (request : Request)
    (w : world) (h : string) :
  headers_get (headers request) "X-Request-ID" = Some h -> h <> "" ->
  established_request_id urandom request w = h.
Proof.
  intros H Hne. unfold established_request_id, incoming_request_id. rewrite H.
  destruct h; [congruence|reflexivity].
Qed.

Lemma established_generated (urandom : nat -> Z) (request : Request) (w : world) :
  headers_get (headers request) "X-Request-ID" = None
  \/ headers_get (headers request) "X-Request-ID" = Some "" ->
  established_request_id urandom request w = UUID.uuid4_str (urandom (draws w))
  /\ draws (entered urandom request w) = S (draws w)
  /\ String.length (established_request_id urandom request w) = 36%nat
  /\ String.get 14 (established_request_id urandom request w) = Some "4"%char.
Proof.
  unfold entered, established_request_id, incoming_request_id.
  intros [H|H]; rewrite H; simpl; repeat split; apply uuid4_str_shape.
Qed.

(** C7 as amended: the middleware stores as request id the incoming
    X-Request-ID header when it is there and not empty, and otherwise the
    text of a UUID-v4 made from a fresh draw of entropy; the rest of the
    stack runs with that id in [request.state]; and a response the rest of
    the stack returns to the middleware leaves it with X-Request-ID equal to
    that id, hence to the incoming header when that was not empty. *)
Theorem C7_request_id_precedence
    (urandom : nat -> Z) (request : Request)
    (call_next : Request -> M Response) (w w' : world) (response : Response) :
  call_next request (entered urandom request w) = (inr response, w') ->
  let request_id := established_request_id urandom request w in
  headers_lookup (state (entered urandom request w)) "request_id" = Some request_id
  /\ (exists out,
        add_request_id_middleware urandom request call_next w = (inr out, w')
        /\ headers_get (raw_headers out) "X-Request-ID" = Some request_id)
  /\ (forall h, headers_get (headers request) "X-Request-ID" = Some h ->
                h <> "" -> request_id = h)
  /\ (headers_get (headers request) "X-Request-ID" = None
      \/ headers_get (headers request) "X-Request-ID" = Some "" ->
      request_id = UUID.uuid4_str (urandom (draws w))
      /\ draws (entered urandom request w) = S (draws w)
      /\ String.length request_id = 36%nat
      /\ String.get 14 request_id = Some "4"%char).
Proof.
  intros H request_id. split; [reflexivity|]. split; [|split].
  - eexists. rewrite add_request_id_middleware_unfold, H.
    split; [reflexivity|]. apply headers_get_set_header.
  - intros h. apply established_from_header.
  - apply established_generated.
Qed.

Lemma C7_request_id_precedence_witness :
  (fun _ : Request => ret (JSONResponse 200 []))
    (chat_request [("x-request-id", "abc")])
    (entered zero_entropy (chat_request [("x-request-id", "abc")]) initial_world)
  = (inr (JSONResponse 200 []),
     entered zero_entropy (chat_request [("x-request-id", "abc")]) initial_world)
  /\ exists out,
       add_request_id_middleware zero_entropy
         (chat_request [("x-request-id", "abc")])
         (fun _ => ret (JSONResponse 200 [])) initial_world
       = (inr out,
          entered zero_entropy (chat_request [("x-request-id", "abc")])
            initial_world)
       /\ headers_get (raw_headers out) "X-Request-ID" = Some "abc".
Proof.
  split; [reflexivity|].
  exact (proj1 (proj2 (C7_request_id_precedence zero_entropy
                         (chat_request [("x-request-id", "abc")])
                         (fun _ => ret (JSONResponse 200 []))
                         initial_world _ (JSONResponse 200 []) eq_refl))).
Defined.

(** C7 as stated fails for a request whose X-Request-ID header is empty: the
    response does not echo the header value, it carries a generated id. *)
Lemma C7_counterexample :
  headers_get (headers (chat_request [("x-request-id", "")])) "X-Request-ID"
  = Some ""
  /\ fst (add_request_id_middleware zero_entropy
            (chat_request [("x-request-id", "")])
            (fun _ => ret (JSONResponse 200 [])) initial_world)
     = inr {| status_code := 200;
              body := [];
              raw_headers :=
                [("content-type", "application/json");
                 ("x-request-id", "00000000-0000-4000-8000-000000000000")] |}.
Proof. split; reflexivity. Qed.

(** The trace of a chat request names no session id. *)
Lemma app_trace_without_session
    (urandom : nat -> Z)
    (create : string -> list pydict -> result completion)
    (client : option langfuse)
    (payload : ChatRequest.t) (request : Request) (w : world) :
  exists events,
    trace (snd (app urandom create client payload request w))
    = (trace w ++ events)%list
    /\ forallb (fun ev => negb (mentions_session ev)) events = true.
Proof.
  exists (generation []
          :: recorded client request
               (Some (established_request_id urandom request w))
               too_many_arguments "UnhandledException").
  rewrite app_outcome. simpl. rewrite <- app_assoc. split; [reflexivity|].
  destruct client; reflexivity.
Qed.

(** C8 as amended: the session id is the body field when that is supplied
    and not empty, else the X-Session-ID header, else absent; when neither is
    supplied the argument handed to the service is [None] and the trace of
    the request names no session id. *)
Theorem C8_session_precedence (payload : ChatRequest.t) (request : Request) :
  (forall s, ChatRequest.session_id payload = Some s -> s <> "" ->
             resolve_session_id payload request = Some s)
  /\ (ChatRequest.session_id payload = None
      \/ ChatRequest.session_id payload = Some "" ->
      resolve_session_id payload request
      = headers_get (headers request) "X-Session-ID")
  /\ (ChatRequest.session_id payload = None ->
      headers_get (headers request) "X-Session-ID" = None ->
      resolve_session_id payload request = None
      /\ (forall request_id,
            nth_error (call_arguments payload request_id
                         (resolve_session_id payload request)) 2
            = Some PyNone)
      /\ forall urandom create client w,
           exists events,
             trace (snd (app urandom create client payload request w))
             = (trace w ++ events)%list
             /\ forallb (fun ev => negb (mentions_session ev)) events = true).
Proof.
  unfold resolve_session_id. split; [|split].
  - intros s H Hne. rewrite H. destruct s; [congruence|reflexivity].
  - intros [H|H]; rewrite H; reflexivity.
  - intros H Hh. rewrite H, Hh. split; [reflexivity|]. split; [reflexivity|].
    intros. apply app_trace_without_session.
Qed.

(** C8 as stated fails when the body supplies an empty session id: the
    header wins. *)
Lemma C8_counterexample :
  spec_resolve_session_id
    {| ChatRequest.message := "ping"; ChatRequest.model := None;
       ChatRequest.session_id := Some "" |}
    (chat_request [("x-session-id", "from-header")])
  = Some ""
  /\ resolve_session_id
       {| ChatRequest.message := "ping"; ChatRequest.model := None;
          ChatRequest.session_id := Some "" |}
       (chat_request [("x-session-id", "from-header")])
     = Some "from-header".
Proof. split; reflexivity. Qed.

(** C10: an empty session id in the body counts as absent: the session id is
    the X-Session-ID header, or absent when there is none. *)
Theorem C10_empty_body_session_falls_back
    (payload : ChatRequest.t) (request : Request) :
  ChatRequest.session_id payload = Some "" ->
  resolve_session_id payload request
  = headers_get (headers request) "X-Session-ID".
Proof. intros H. unfold resolve_session_id. rewrite H. reflexivity. Qed.

Lemma C10_empty_body_session_falls_back_witness :
  ChatRequest.session_id
    {| ChatRequest.message := "ping"; ChatRequest.model := None;
       ChatRequest.session_id := Some "" |} = Some ""
  /\ resolve_session_id
       {| ChatRequest.message := "ping"; ChatRequest.model := None;
          ChatRequest.session_id := Some "" |}
       (chat_request [("x-session-id", "from-header")])
     = Some "from-header".
Proof.
  split; [reflexivity|].
  exact (C10_empty_body_session_falls_back
           {| ChatRequest.message := "ping"; ChatRequest.model := None;
              ChatRequest.session_id := Some "" |}
           (chat_request [("x-session-id", "from-header")]) eq_refl).
Defined.

(** ** More on the response normalizer *)

Lemma join_items_fails (items : list pyval) (i : nat) :
  match join_items i items with inl _ => true | inr _ => false end
  = existsb (fun v => negb (is_str v)) items.
Proof.
  revert i. induction items as [|v rest IH]; intros i; [reflexivity|].
  destruct v; simpl; try reflexivity.
  rewrite <- (IH (S i)). destruct (join_items (S i) rest); reflexivity.
Qed.

Lemma join_items_error_class (items : list pyval) (i : nat) (e : pyexn) :
  join_items i items = inl e -> exn_cls e = TypeError.
Proof.
  revert i. induction items as [|v rest IH]; intros i; simpl; [discriminate|].
  destruct v; try (intros H; injection H as <-; reflexivity).
  destruct (join_items (S i) rest) eqn:E; [|discriminate].
  intros H. injection H as <-. exact (IH _ E).
Qed.

Lemma existsb_filter_truthy (texts : list pyval) :
  existsb (fun v => negb (is_str v)) (filter truthy texts)
  = existsb bad_text texts.
Proof.
  induction texts as [|v rest IH]; [reflexivity|]. simpl. unfold bad_text at 1.
  destruct (truthy v); simpl; rewrite IH; reflexivity.
Qed.

Lemma filter_map_truthy (parts : list part) :
  filter truthy (map part_text parts)
  = map part_text (filter (fun p => truthy (part_text p)) parts).
Proof.
  induction parts as [|p rest IH]; [reflexivity|]. simpl.
  destruct (truthy (part_text p)); simpl; rewrite IH; reflexivity.
Qed.

Lemma filter_twice {A} (f : A -> bool) (l : list A) :
  filter f (filter f l) = filter f l.
Proof.
  induction l as [|x rest IH]; [reflexivity|]. simpl.
  destruct (f x) eqn:E; simpl; [rewrite E|]; rewrite IH; reflexivity.
Qed.

(** X1: whatever the provider answered, normalization either returns a text
    that is not blank or raises a service error for an empty or a malformed
    response; it never returns a blank text and never lets another
    exception out. *)
Theorem normalize_text_or_service_error (c : completion) :
  match normalize c with
  | inr text => PyString.strip text <> ""
  | inl e =>
      is_LLMServiceError e = true
      /\ (variant_of e = Some EmptyResponse \/ variant_of e = Some MalformedResponse)
  end.
Proof.
  unfold normalize, try_extract.
  destruct (first_message c) as [e|m]; [split; [reflexivity|right; reflexivity]|].
  destruct (getattr_content m) as [|s|parts|];
    try (split; [reflexivity|left; reflexivity]).
  - destruct (PyString.strip s) eqn:E; simpl.
    + split; [reflexivity|right; reflexivity].
    + rewrite E. discriminate.
  - destruct parts as [|p ps]; [split; [reflexivity|left; reflexivity]|].
    destruct (py_join PyString.LF (filter truthy (map part_text (p :: ps))))
      as [e|combined]; [split; [reflexivity|right; reflexivity]|].
    destruct (PyString.strip combined) eqn:E; simpl.
    + split; [reflexivity|left; reflexivity].
    + rewrite E. discriminate.
Qed.

(** X2: normalization reports an unexpected structure, with the exception
    met as cause, in each of these cases: the completion has no choice; the
    content is a blank string; the content is a list in which some part has
    a text that is truthy and not a string. *)
Theorem normalize_malformed_cases (c : completion) :
  malformed_shape c = true ->
  exists cause,
    normalize c = inl (service_error MalformedResponse (Some cause))
    /\ (choices c = [] -> exn_cls cause = IndexError).
Proof.
  unfold normalize, try_extract, malformed_shape, first_message.
  destruct (choices c) as [|first others].
  - intros _. eexists. split; [reflexivity|]. reflexivity.
  - destruct (getattr_content (message first)) as [|s|parts|];
      try discriminate.
    + intros H. rewrite truthy_strip, H. eexists. split; [reflexivity|].
      discriminate.
    + destruct parts as [|p ps]; [discriminate|].
      rewrite <- existsb_filter_truthy, <- (join_items_fails _ 0).
      unfold py_join.
      destruct (join_items 0 (filter truthy (map part_text (p :: ps))))
        as [e|l]; [|discriminate].
      intros _. exists e. split; [reflexivity|]. discriminate.
Qed.

Lemma normalize_malformed_cases_witness :
  malformed_shape {| choices := [] |} = true
  /\ exists cause,
       normalize {| choices := [] |}
       = inl (service_error MalformedResponse (Some cause))
       /\ (choices {| choices := [] |} = [] -> exn_cls cause = IndexError).
Proof.
  split; [reflexivity|].
  exact (normalize_malformed_cases {| choices := [] |} eq_refl).
Defined.

(** X3: parts whose text is falsy (a dict without text entry, an empty
    text, [None], [0], an empty list) make no difference to the result. *)
Theorem normalize_ignores_falsy_parts (parts : list part) (others : list choice) :
  normalize (completion_with (ContentList parts) others)
  = normalize (completion_with
                 (ContentList (filter (fun p => truthy (part_text p)) parts))
                 others).
Proof.
  rewrite !normalize_parts_general, !filter_map_truthy, filter_twice.
  reflexivity.
Qed.

(** X4: when a text that is truthy and not a string stops the conversion of
    a list, the cause kept in the service error is the [TypeError] of
    [join]. *)
Theorem normalize_bad_text_cause (parts : list part) (others : list choice) :
  existsb bad_text (map part_text parts) = true ->
  exists cause,
    normalize (completion_with (ContentList parts) others)
    = inl (service_error MalformedResponse (Some cause))
    /\ exn_cls cause = TypeError.
Proof.
  intros H. rewrite normalize_parts_general.
  rewrite <- existsb_filter_truthy, <- (join_items_fails _ 0) in H.
  unfold py_join.
  destruct (join_items 0 (filter truthy (map part_text parts))) as [e|l] eqn:E;
    [|discriminate].
  exists e. split; [reflexivity|]. exact (join_items_error_class _ _ _ E).
Qed.

Lemma normalize_bad_text_cause_witness :
  existsb bad_text (map part_text [PartDict [("text", PyStr "a")];
                                   PartDict [("text", PyInt 5)]]) = true
  /\ exists cause,
       normalize (completion_with
                    (ContentList [PartDict [("text", PyStr "a")];
                                  PartDict [("text", PyInt 5)]]) [])
       = inl (service_error MalformedResponse (Some cause))
       /\ exn_cls cause = TypeError.
Proof.
  split; [reflexivity|].
  exact (normalize_bad_text_cause
           [PartDict [("text", PyStr "a")]; PartDict [("text", PyInt 5)]] []
           eq_refl).
Defined.

(** ** More on the service *)

(** X5: the outcomes of [_call_llm], whatever the provider call returns or
    raises: a text that is not blank, or a service error of one of the three
    kinds; an exception of the provider call comes out as the call-failed
    error and never as itself.  (Exceptions are those of class [Exception],
    the ones [except Exception] catches.) *)
Theorem call_llm_text_or_service_error
    (create : string -> list pydict -> result completion) (prompt : pyval) :
  match _call_llm create prompt with
  | inr text => PyString.strip text <> ""
  | inl e =>
      is_LLMServiceError e = true
      /\ (exists k, variant_of e = Some k)
      /\ (forall raised,
            create "anthropic/claude-3.5-sonnet" (chat_messages prompt) = inl raised ->
            e = service_error CallFailed (Some raised))
  end.
Proof.
  unfold _call_llm.
  destruct (create _ _) as [raised|c].
  - split; [reflexivity|]. split; [exists CallFailed; reflexivity|].
    intros r H. injection H as ->. reflexivity.
  - pose proof (normalize_text_or_service_error c) as H.
    destruct (normalize c) as [e|text]; [|exact H].
    destruct H as [H1 [H2|H2]]; (split; [exact H1|]);
      (split; [eauto|discriminate]).
Qed.

(** ** More on the middleware stack *)

(** the stack around any route, case by case *)
Lemma stack_unfold
    (urandom : nat -> Z) (client : option langfuse)
    (route : Request -> M Response) (request : Request) (w : world) :
  stack urandom client route request w
  = match route request (entered urandom request w) with
    | (inr response, w') =>
        (inr (set_header response "X-Request-ID"
                (established_request_id urandom request w)), w')
    | (inl exc, w') =>
        let stored := headers_lookup (state w') "request_id" in
        if is_LLMServiceError exc
        then (inr (set_header
                     (JSONResponse 500
                        (failure_body "An error occurred while calling the LLM."
                           stored))
                     "X-Request-ID" (established_request_id urandom request w)),
              with_trace w' (recorded client request stored exc "LLMServiceError"))
        else (inr (JSONResponse 500 (failure_body "Internal server error." stored)),
              with_trace w' (recorded client request stored exc
                               "UnhandledException"))
    end.
Proof.
  unfold stack, ServerErrorMiddleware, try_except at 1.
  rewrite add_request_id_middleware_unfold.
  unfold ExceptionMiddleware, try_except.
  destruct (route request (entered urandom request w)) as [[exc|response] w'];
    [|reflexivity].
  destruct (is_LLMServiceError exc).
  - rewrite llm_service_exception_handler_unfold. reflexivity.
  - unfold raise. rewrite generic_exception_handler_unfold. reflexivity.
Qed.







(** X10: nothing of the error reaches the caller.  The response of either
    handler is fixed by the request id stored in [request.state]: two errors
    with different messages, on different requests, with or without tracing
    client, are answered alike. *)
Theorem handlers_do_not_leak
    (client1 client2 : option langfuse) (request1 request2 : Request)
    (exc1 exc2 : pyexn) (w1 w2 : world) :
  headers_lookup (state w1) "request_id" = headers_lookup (state w2) "request_id" ->
  fst (llm_service_exception_handler client1 request1 exc1 w1)
  = fst (llm_service_exception_handler client2 request2 exc2 w2)
  /\ fst (generic_exception_handler client1 request1 exc1 w1)
     = fst (generic_exception_handler client2 request2 exc2 w2).
Proof.
  intros H.
  rewrite !llm_service_exception_handler_unfold,
    !generic_exception_handler_unfold.
  simpl. rewrite H. split; reflexivity.
Qed.

Lemma handlers_do_not_leak_witness :
  headers_lookup (state initial_world) "request_id"
  = headers_lookup (state initial_world) "request_id"
  /\ fst (llm_service_exception_handler (Some Langfuse) (chat_request [])
            (service_error CallFailed None) initial_world)
     = fst (llm_service_exception_handler None
              {| method := "GET"; path := "/other"; headers := [] |}
              (service_error EmptyResponse None) initial_world).
Proof.
  split; [reflexivity|].
  exact (proj1 (handlers_do_not_leak (Some Langfuse) None (chat_request [])
                  {| method := "GET"; path := "/other"; headers := [] |}
                  (service_error CallFailed None)
                  (service_error EmptyResponse None)
                  initial_world initial_world eq_refl)).
Defined.

(** ** More on the request-id middleware *)

Lemma headers_lookup_cons
    (k v key : string) (rest : list (string * string)) :
  headers_lookup ((k, v) :: rest) key
  = if String.eqb k key then Some v else headers_lookup rest key.
Proof. reflexivity. Qed.

Lemma entries_of_drop_key (key : string) (hs : list (string * string)) :
  entries_of key (drop_key key hs) = [].
Proof.
  induction hs as [|[k v] rest IH]; [reflexivity|]. simpl.
  destruct (String.eqb k key) eqn:E; simpl; [exact IH|].
  rewrite E. exact IH.
Qed.

Lemma headers_lookup_drop_key (key other : string) (hs : list (string * string)) :
  other <> key ->
  headers_lookup (drop_key key hs) other = headers_lookup hs other.
Proof.
  intros Hne. induction hs as [|[k v] rest IH]; [reflexivity|]. simpl.
  destruct (String.eqb k key) eqn:E; simpl.
  - apply String.eqb_eq in E. subst k.
    destruct (String.eqb key other) eqn:E2; [|exact IH].
    apply String.eqb_eq in E2. congruence.
  - rewrite IH. reflexivity.
Qed.

Lemma entries_of_replace (key value : string) (hs : list (string * string)) :
  entries_of key (headers_replace hs key value) = [(key, value)].
Proof.
  induction hs as [|[k v] rest IH]; simpl.
  - rewrite String.eqb_refl. reflexivity.
  - destruct (String.eqb k key) eqn:E; simpl.
    + rewrite String.eqb_refl, entries_of_drop_key. reflexivity.
    + rewrite E. exact IH.
Qed.

Lemma headers_lookup_replace_other
    (key other value : string) (hs : list (string * string)) :
  other <> key ->
  headers_lookup (headers_replace hs key value) other = headers_lookup hs other.
Proof.
  intros Hne. induction hs as [|[k v] rest IH]; simpl.
  - destruct (String.eqb key other) eqn:E; [|reflexivity].
    apply String.eqb_eq in E. congruence.
  - destruct (String.eqb k key) eqn:E; simpl.
    + apply String.eqb_eq in E. subst k.
      destruct (String.eqb key other) eqn:E2.
      * apply String.eqb_eq in E2. congruence.
      * apply headers_lookup_drop_key. exact Hne.
    + rewrite IH. reflexivity.
Qed.

(** X11: the middleware owns the X-Request-ID header of a response that
    passes through it: whatever the rest of the stack put under that name,
    once or several times, the response leaves with exactly one such entry,
    the established id; every other header, the status and the body are as
    the rest of the stack made them. *)
Theorem middleware_owns_request_id_header
    (urandom : nat -> Z) (request : Request)
    (call_next : Request -> M Response) (w w' : world) (response : Response) :
  call_next request (entered urandom request w) = (inr response, w') ->
  exists out,
    add_request_id_middleware urandom request call_next w = (inr out, w')
    /\ entries_of "x-request-id" (raw_headers out)
       = [("x-request-id", established_request_id urandom request w)]
    /\ (forall name, name <> "x-request-id" ->
          headers_lookup (raw_headers out) name
          = headers_lookup (raw_headers response) name)
    /\ status_code out = status_code response
    /\ body out = body response.
Proof.
  intros H. eexists. rewrite add_request_id_middleware_unfold, H.
  split; [reflexivity|]. split; [|split; [|split; reflexivity]].
  - apply (entries_of_replace "x-request-id").
  - intros name Hne. apply (headers_lookup_replace_other "x-request-id"). exact Hne.
Qed.

Lemma middleware_owns_request_id_header_witness :
  (fun _ : Request =>
     ret {| status_code := 200; body := [];
            raw_headers := [("x-request-id", "stale"); ("x-other", "kept");
                            ("x-request-id", "stale-too")] |})
    (chat_request [("x-request-id", "abc")])
    (entered zero_entropy (chat_request [("x-request-id", "abc")]) initial_world)
  = (inr {| status_code := 200; body := [];
            raw_headers := [("x-request-id", "stale"); ("x-other", "kept");
                            ("x-request-id", "stale-too")] |},
     entered zero_entropy (chat_request [("x-request-id", "abc")]) initial_world)
  /\ exists out,
       add_request_id_middleware zero_entropy
         (chat_request [("x-request-id", "abc")])
         (fun _ =>
            ret {| status_code := 200; body := [];
                   raw_headers := [("x-request-id", "stale"); ("x-other", "kept");
                                   ("x-request-id", "stale-too")] |})
         initial_world
       = (inr out,
          entered zero_entropy (chat_request [("x-request-id", "abc")])
            initial_world)
       /\ entries_of "x-request-id" (raw_headers out) = [("x-request-id", "abc")].
Proof.
  split; [reflexivity|].
  destruct (middleware_owns_request_id_header zero_entropy
              (chat_request [("x-request-id", "abc")])
              (fun _ =>
                 ret {| status_code := 200; body := [];
                        raw_headers := [("x-request-id", "stale");
                                        ("x-other", "kept");
                                        ("x-request-id", "stale-too")] |})
              initial_world _ _ eq_refl) as [out [H1 [H2 _]]].
  exists out. split; [exact H1|exact H2].
Defined.

Lemma established_request_id_not_empty
    (urandom : nat -> Z) (request : Request) (w : world) :
  established_request_id urandom request w <> "".
Proof.
  unfold established_request_id, incoming_request_id.
  destruct (headers_get (headers request) "X-Request-ID") as [h|].
  - destruct h as [|c rest]; simpl; [|discriminate].
    intros E. pose proof (proj1 (uuid4_str_shape (urandom (draws w)))) as L.
    rewrite E in L. discriminate.
  - intros E. pose proof (proj1 (uuid4_str_shape (urandom (draws w)))) as L.
    rewrite E in L. discriminate.
Qed.

(** X12: what the middleware does before and after the rest of the stack,
    whatever that rest is.  It runs the rest once, in a world where
    [request.state] holds one request id, which is not empty, in place of
    any stored before, the other attributes and the trace being untouched;
    a response of the rest leaves with that id as X-Request-ID, and an
    exception of the rest leaves as it is. *)
Theorem middleware_establishes_request_id
    (urandom : nat -> Z) (request : Request) (w : world) :
  exists request_id w1,
    request_id <> ""
    /\ entries_of "request_id" (state w1) = [("request_id", request_id)]
    /\ (forall name, name <> "request_id" ->
          headers_lookup (state w1) name = headers_lookup (state w) name)
    /\ trace w1 = trace w
    /\ forall call_next : Request -> M Response,
         add_request_id_middleware urandom request call_next w
         = match call_next request w1 with
           | (inl e, w') => (inl e, w')
           | (inr response, w') =>
               (inr (set_header response "X-Request-ID" request_id), w')
           end.
Proof.
  exists (established_request_id urandom request w), (entered urandom request w).
  split; [apply established_request_id_not_empty|].
  split; [|split; [|split]].
  - unfold entered; simpl. rewrite entries_of_drop_key. reflexivity.
  - intros name Hne. unfold entered. cbn [state].
    rewrite headers_lookup_cons.
    destruct (String.eqb "request_id" name) eqn:E.
    + apply String.eqb_eq in E. congruence.
    + apply headers_lookup_drop_key. exact Hne.
  - reflexivity.
  - intros call_next. apply add_request_id_middleware_unfold.
Qed.

(** X13: the resolved session id is absent exactly when the body gives none
    or an empty one and there is no X-Session-ID header; and it can be the
    empty string only through an empty header, never through the body. *)
Theorem resolve_session_id_absent_or_empty
    (payload : ChatRequest.t) (request : Request) :
  (resolve_session_id payload request = None
   <-> (ChatRequest.session_id payload = None
        \/ ChatRequest.session_id payload = Some "")
       /\ headers_get (headers request) "X-Session-ID" = None)
  /\ (resolve_session_id payload request = Some ""
      <-> (ChatRequest.session_id payload = None
           \/ ChatRequest.session_id payload = Some "")
          /\ headers_get (headers request) "X-Session-ID" = Some "").
Proof.
  unfold resolve_session_id, or_else.
  destruct (ChatRequest.session_id payload) as [[|c s]|]; simpl.
  - split; (split; [intros H; split; [right; reflexivity|exact H]|intros [_ H]; exact H]).
  - split; (split; [discriminate|intros [[H|H] _]; discriminate]).
  - split; (split; [intros H; split; [left; reflexivity|exact H]|intros [_ H]; exact H]).
Qed.

(** ** More on generated request ids *)

Lemma hex_digit_is_hex (n : nat) : (n < 16)%nat -> is_hex_lower (PyRepr.hex_digit n) = true.
Proof. intros H. do 16 (destruct n as [|n]; [reflexivity|]). lia. Qed.

Lemma hex_fixed_chars (n i : nat) (z : Z) (c : ascii) :
  String.get i (UUID.hex_fixed n z) = Some c -> is_hex_lower c = true.
Proof.
  intros H. destruct (Nat.ltb_spec i n) as [Hlt|Hge].
  - rewrite hex_fixed_get in H by exact Hlt. injection H as <-.
    apply hex_digit_is_hex.
    pose proof (Z.mod_pos_bound (z / 16 ^ Z.of_nat (n - 1 - i)) 16 ltac:(lia)). lia.
  - pose proof (substring_correct2 (UUID.hex_fixed n z) 0 n i Hge) as N.
    assert (E : substring 0 n (UUID.hex_fixed n z) = UUID.hex_fixed n z).
    { clear. pose proof (hex_fixed_length n z) as L.
      revert L. generalize (UUID.hex_fixed n z). intros s L. subst n.
      induction s as [|c s IH]; [reflexivity|]. simpl. rewrite IH. reflexivity. }
    rewrite E in N. congruence.
Qed.

Lemma get_app_some (a b : string) (i : nat) (c : ascii) :
  String.get i (a ++ b) = Some c ->
  String.get i a = Some c \/ exists j, String.get j b = Some c.
Proof.
  intros H. destruct (Nat.ltb_spec i (String.length a)) as [Hlt|Hge].
  - left. rewrite get_app_left in H by exact Hlt. exact H.
  - right. rewrite get_app_right in H by exact Hge. eauto.
Qed.

Lemma get_substring_some (s : string) (n m p : nat) (c : ascii) :
  String.get p (substring n m s) = Some c -> exists q, String.get q s = Some c.
Proof.
  intros H. destruct (Nat.ltb_spec p m) as [Hlt|Hge].
  - rewrite substring_correct1 in H by exact Hlt. eauto.
  - rewrite substring_correct2 in H by exact Hge. discriminate.
Qed.

Lemma chars_app (P : ascii -> Prop) (a b : string) :
  (forall i c, String.get i a = Some c -> P c) ->
  (forall i c, String.get i b = Some c -> P c) ->
  forall i c, String.get i (a ++ b) = Some c -> P c.
Proof.
  intros Ha Hb i c H. apply get_app_some in H. destruct H as [H|[j H]]; eauto.
Qed.

Lemma chars_hex_group (z : Z) (n m : nat) (i : nat) (c : ascii) :
  String.get i (substring n m (UUID.hex_fixed 32 z)) = Some c ->
  is_hex_lower c = true \/ c = "-"%char.
Proof.
  intros H. apply get_substring_some in H. destruct H as [q H].
  left. exact (hex_fixed_chars _ _ _ _ H).
Qed.

Lemma chars_dash (b : string) :
  (forall i c, String.get i b = Some c -> is_hex_lower c = true \/ c = "-"%char) ->
  forall i c, String.get i ("-" ++ b) = Some c ->
              is_hex_lower c = true \/ c = "-"%char.
Proof.
  intros Hb i c H. destruct i as [|i]; simpl in H.
  - right. congruence.
  - eauto.
Qed.

Lemma to_str_chars (z : Z) (i : nat) (c : ascii) :
  String.get i (UUID.to_str z) = Some c ->
  is_hex_lower c = true \/ c = "-"%char.
Proof.
  unfold UUID.to_str; cbv zeta. revert i c.
  repeat first [apply chars_app; [apply chars_hex_group|]
               |apply chars_dash
               |apply chars_hex_group].
Qed.

Lemma variant_nibble (x : Z) :
  8 <= (UUID.with_version4 x / 2 ^ 60) mod 2 ^ 4 <= 11.
Proof.
  set (n := (UUID.with_version4 x / 2 ^ 60) mod 2 ^ 4).
  assert (B : 0 <= n < 16) by (apply Z.mod_pos_bound; lia).
  assert (T3 : Z.testbit n 3 = true).
  { unfold n. rewrite Z.mod_pow2_bits_low by lia.
    rewrite Z.div_pow2_bits by lia. unfold UUID.with_version4.
    repeat first [rewrite Z.lor_spec | rewrite Z.land_spec
                 | rewrite Z.lnot_spec by lia].
    change (Z.testbit (Z.shiftl 49152 48) (3 + 60)) with true.
    change (Z.testbit (Z.shiftl 32768 48) (3 + 60)) with true.
    change (Z.testbit (Z.shiftl 61440 64) (3 + 60)) with false.
    change (Z.testbit (Z.shiftl 4 76) (3 + 60)) with false.
    destruct (Z.testbit x (3 + 60)); reflexivity. }
  assert (T2 : Z.testbit n 2 = false).
  { unfold n. rewrite Z.mod_pow2_bits_low by lia.
    rewrite Z.div_pow2_bits by lia. unfold UUID.with_version4.
    repeat first [rewrite Z.lor_spec | rewrite Z.land_spec
                 | rewrite Z.lnot_spec by lia].
    change (Z.testbit (Z.shiftl 49152 48) (2 + 60)) with true.
    change (Z.testbit (Z.shiftl 32768 48) (2 + 60)) with false.
    change (Z.testbit (Z.shiftl 61440 64) (2 + 60)) with false.
    change (Z.testbit (Z.shiftl 4 76) (2 + 60)) with false.
    destruct (Z.testbit x (2 + 60)); reflexivity. }
  clearbody n.
  apply Z.testbit_true in T3; [|lia]. apply Z.testbit_false in T2; [|lia].
  change (2 ^ 3) with 8 in T3. change (2 ^ 2) with 4 in T2.
  Z.to_euclidean_division_equations. lia.
Qed.

Lemma to_str_variant (z : Z) :
  String.get 19 (UUID.to_str z)
  = Some (PyRepr.hex_digit (Z.to_nat ((z / 16 ^ 15) mod 16))).
Proof.
  unfold UUID.to_str; cbv zeta.
  pose proof (hex_fixed_length 32 z) as L.
  set (hex := UUID.hex_fixed 32 z) in *.
  assert (L1 : String.length (substring 0 8 hex) = 8%nat)
    by (apply substring_length; lia).
  assert (L2 : String.length (substring 8 4 hex) = 4%nat)
    by (apply substring_length; lia).
  assert (L3 : String.length (substring 12 4 hex) = 4%nat)
    by (apply substring_length; lia).
  assert (L4 : String.length (substring 16 4 hex) = 4%nat)
    by (apply substring_length; lia).
  rewrite get_app_right by lia. rewrite L1.
  rewrite get_app_right by (simpl; lia). simpl String.length.
  rewrite get_app_right by lia. rewrite L2.
  rewrite get_app_right by (simpl; lia). simpl String.length.
  rewrite get_app_right by lia. rewrite L3.
  rewrite get_app_right by (simpl; lia). simpl String.length.
  rewrite get_app_left by lia.
  rewrite substring_correct1 by lia.
  unfold hex. rewrite hex_fixed_get by lia. reflexivity.
Qed.


Lemma append_inj (a a' b b' : string) :
  String.length a = String.length a' -> (a ++ b = a' ++ b')%string ->
  a = a' /\ b = b'.
Proof.
  revert a'. induction a as [|c a IH]; intros [|c' a'] L H; simpl in *;
    try discriminate.
  - split; [reflexivity|exact H].
  - injection H as -> H. injection L as L.
    destruct (IH _ L H) as [-> ->]. split; reflexivity.
Qed.

Lemma hex_digit_code (n : nat) :
  (n < 16)%nat ->
  nat_of_ascii (PyRepr.hex_digit n) = (if (n <? 10)%nat then 48 + n else 87 + n)%nat.
Proof.
  intros H. unfold PyRepr.hex_digit.
  destruct (n <? 10)%nat; apply nat_ascii_embedding; lia.
Qed.

Lemma hex_digit_inj (n m : nat) :
  (n < 16)%nat -> (m < 16)%nat ->
  PyRepr.hex_digit n = PyRepr.hex_digit m -> n = m.
Proof.
  intros Hn Hm H. apply (f_equal nat_of_ascii) in H.
  rewrite !hex_digit_code in H by assumption.
  destruct (Nat.ltb_spec n 10), (Nat.ltb_spec m 10); lia.
Qed.

Lemma hex_fixed_inj (n : nat) (z1 z2 : Z) :
  UUID.hex_fixed n z1 = UUID.hex_fixed n z2 ->
  z1 mod 16 ^ Z.of_nat n = z2 mod 16 ^ Z.of_nat n.
Proof.
  revert z1 z2. induction n as [|k IH]; intros z1 z2 H.
  - simpl. rewrite !Z.mod_1_r. reflexivity.
  - simpl UUID.hex_fixed in H.
    apply append_inj in H; [|rewrite !hex_fixed_length; reflexivity].
    destruct H as [Hp Hd]. injection Hd as Hd.
    apply hex_digit_inj in Hd;
      try (pose proof (Z.mod_pos_bound z1 16 ltac:(lia));
           pose proof (Z.mod_pos_bound z2 16 ltac:(lia)); lia).
    apply IH in Hp.
    rewrite Nat2Z.inj_succ, Z.pow_succ_r by lia.
    rewrite !Z.rem_mul_r by lia. rewrite Hp.
    assert (z1 mod 16 = z2 mod 16) by
      (pose proof (Z.mod_pos_bound z1 16 ltac:(lia));
       pose proof (Z.mod_pos_bound z2 16 ltac:(lia)); lia).
    congruence.
Qed.

Lemma to_str_inj (z1 z2 : Z) :
  UUID.to_str z1 = UUID.to_str z2 ->
  UUID.hex_fixed 32 z1 = UUID.hex_fixed 32 z2.
Proof.
  intros H.
  apply (f_equal (fun s => substring 0 8 s ++ substring 9 4 s ++ substring 14 4 s
                           ++ substring 19 4 s ++ substring 24 12 s)%string) in H.
  exact H.
Qed.

Lemma forced_bits_inside :
  Z.land (Z.shiftl 0x8000 48) (Z.shiftl 0xc000 48) = Z.shiftl 0x8000 48
  /\ Z.land (Z.shiftl 4 76) (Z.shiftl 0xf000 64) = Z.shiftl 4 76.
Proof. split; reflexivity. Qed.

Lemma with_version4_bits (x i : Z) :
  0 <= i ->
  Z.testbit (UUID.with_version4 x) i
  = ((Z.testbit x i && negb (Z.testbit (Z.shiftl 0xc000 48) i)
      || Z.testbit (Z.shiftl 0x8000 48) i)
     && negb (Z.testbit (Z.shiftl 0xf000 64) i)
     || Z.testbit (Z.shiftl 4 76) i).
Proof.
  intros Hi. unfold UUID.with_version4.
  repeat first [rewrite Z.lor_spec | rewrite Z.land_spec
               | rewrite Z.lnot_spec by lia].
  reflexivity.
Qed.

Lemma with_version4_free_bits (random16 : Z) :
  UUID.with_version4 (random16 mod 2 ^ 128)
  = UUID.with_version4 (free_bits random16).
Proof.
  apply Z.bits_inj'. intros i Hi. rewrite !with_version4_bits by exact Hi.
  unfold free_bits. rewrite Z.land_spec, Z.lnot_spec, Z.lor_spec by exact Hi.
  destruct (Z.testbit (random16 mod 2 ^ 128) i),
    (Z.testbit (Z.shiftl 49152 48) i), (Z.testbit (Z.shiftl 61440 64) i),
    (Z.testbit (Z.shiftl 32768 48) i), (Z.testbit (Z.shiftl 4 76) i);
    reflexivity.
Qed.

Lemma free_bits_of_version (random16 : Z) :
  free_bits random16
  = Z.land (UUID.with_version4 (random16 mod 2 ^ 128) mod 2 ^ 128)
           (Z.lnot (Z.lor (Z.shiftl 0xc000 48) (Z.shiftl 0xf000 64))).
Proof.
  apply Z.bits_inj'. intros i Hi. unfold free_bits.
  rewrite !Z.land_spec, Z.lnot_spec, Z.lor_spec by exact Hi.
  destruct (Z.ltb_spec i 128) as [Hlt|Hge].
  - rewrite (Z.mod_pow2_bits_low (UUID.with_version4 _)) by exact Hlt.
    rewrite with_version4_bits by exact Hi.
    destruct forced_bits_inside as [I1 I2].
    apply (f_equal (fun z => Z.testbit z i)) in I1, I2.
    rewrite Z.land_spec in I1, I2.
    destruct (Z.testbit (random16 mod 2 ^ 128) i),
      (Z.testbit (Z.shiftl 49152 48) i), (Z.testbit (Z.shiftl 61440 64) i),
      (Z.testbit (Z.shiftl 32768 48) i), (Z.testbit (Z.shiftl 4 76) i);
      try reflexivity; simpl in I1, I2; discriminate.
  - rewrite !Z.mod_pow2_bits_high by lia. reflexivity.
Qed.

(** X15: two generated request ids are equal exactly when the draws of
    entropy they come from agree on the 122 bits that the version and the
    variant do not overwrite; draws that differ in one of those bits give
    different ids. *)
Theorem uuid4_str_distinct (r1 r2 : Z) :
  UUID.uuid4_str r1 = UUID.uuid4_str r2 <-> free_bits r1 = free_bits r2.
Proof.
  unfold UUID.uuid4_str. split; intros H.
  - apply to_str_inj, hex_fixed_inj in H.
    change (16 ^ Z.of_nat 32) with (2 ^ 128) in H.
    rewrite !free_bits_of_version, H. reflexivity.
  - rewrite !with_version4_free_bits, H. reflexivity.
Qed.

(** ** Configuration *)

(** X16: the settings are loaded once.  After a call of [get_settings] that
    returned, every later call returns the same settings and leaves the
    cache alone, whatever the environment has become; and [_get_client]
    hands the base URL and the key of those settings to the constructor of
    the client, whose outcome, a client or an exception, is its own. *)
Theorem settings_loaded_once
    (environ : Type) (load : environ -> result Config.AppSettings)
    (OpenAI : Type) (new_OpenAI : environ -> string -> string -> result OpenAI)
    (env : environ) (cache cache' : option Config.AppSettings)
    (settings : Config.AppSettings) :
  Config.get_settings environ load env cache = (inr settings, cache') ->
  cache' = Some settings
  /\ forall env',
       Config.get_settings environ load env' cache' = (inr settings, cache')
       /\ Config._get_client environ load OpenAI new_OpenAI env' cache'
          = (new_OpenAI env' (Config.openai_base_url settings)
               (Config.openai_api_key settings), cache').
Proof.
  unfold Config._get_client, Config.get_settings. destruct cache as [s|].
  - intros H. injection H as -> <-. repeat split.
  - destruct (load env) as [e|s]; [discriminate|].
    intros H. injection H as -> <-. repeat split.
Qed.

Lemma settings_loaded_once_witness :
  Config.get_settings bool sample_load true None
  = (inr sample_settings, Some sample_settings)
  /\ Config._get_client bool sample_load (string * string) sample_new_OpenAI
       false (Some sample_settings)
     = (inr ("https://openrouter.ai/api/v1", "sk-test"), Some sample_settings).
Proof.
  split; [reflexivity|].
  exact (proj2 (proj2 (settings_loaded_once bool sample_load (string * string)
                         sample_new_OpenAI true None (Some sample_settings)
                         sample_settings eq_refl)
                  false)).
Defined.

